(** * barkoder-node-sdk: the configuration model and the Node binding

  A shallow embedding of [src/SpecificConfigs.hpp] (the per-symbology
  configuration classes) and of [src/barkoder_node.cpp] (the N-API
  binding around the decoding engine), with the properties the
  specification states about them.

  Conventions.
    - A C++ [int] is a [Z]; where the code computes with it, the 32-bit
      two's complement wrap-around is written out with [wrap32].
    - An [enum class] is an inductive type together with the integer value
      of each enumerator; a variable of the enum type that receives a
      [static_cast] from [int] is kept as its underlying integer.
    - A [std::string] is a [string]; passing it through [c_str()] to a C
      API keeps the characters before the first NUL.
    - A call that may throw returns a sum whose [inr] side is the
      exception. *)

From Stdlib Require Import ZArith List String Ascii Bool Lia QArith.
From Stdlib Require Import DecimalString.
Import ListNotations.

Local Open Scope string_scope.
Local Open Scope Z_scope.

Set Implicit Arguments.
Set Warnings "-register-all".

(* ================================================================= *)
(** ** Machine integers *)

Definition INT_MIN : Z := - 2 ^ 31.
Definition INT_MAX : Z := 2 ^ 31 - 1.

(** The value an [int] holds after a computation whose mathematical
  result is [z]: reduction modulo [2^32] into [INT_MIN .. INT_MAX]. *)
Definition wrap32 (z : Z) : Z := (z + 2 ^ 31) mod 2 ^ 32 - 2 ^ 31.

(** [static_cast<size_t>(i)] on a 64-bit target. *)
Definition to_size_t (i : Z) : Z := i mod 2 ^ 64.

(** [std::to_string(int)]. *)
Definition to_string (i : Z) : string := NilZero.string_of_int (Z.to_int i).

(* ================================================================= *)
(** ** Enumerations of SpecificConfigs.hpp *)

Inductive DecodingSpeed := Fast | Normal | Slow | Rigorous.

Definition DecodingSpeed_value (s : DecodingSpeed) : Z :=
  match s with Fast => 0 | Normal => 1 | Slow => 2 | Rigorous => 3 end.

Definition DecodingSpeed_of_value (z : Z) : option DecodingSpeed :=
  match z with
  | 0 => Some Fast | 1 => Some Normal | 2 => Some Slow | 3 => Some Rigorous
  | _ => None
  end.

Module BarcodeType.
Inductive t :=
| Aztec | AztecCompact | QR | QRMicro | Code128 | Code93 | Code39
| Codabar | Code11 | Msi | UpcA | UpcE | UpcE1 | Ean13 | Ean8 | PDF417
| PDF417Micro | Datamatrix | Code25 | Interleaved25 | ITF14 | IATA25
| Matrix25 | Datalogic25 | COOP25 | Code32 | Telepen | Dotcode
| IDDocument | IDMRZ | IDPicture | IDSignature | Databar14
| DatabarLimited | DatabarExpanded | PostalIMB | Postnet | Planet
| AustralianPost | RoyalMail | KIX | JapanesePost | MaxiCode.

(** The enumerators in declaration order. *)
Definition all : list t :=
  [ Aztec; AztecCompact; QR; QRMicro; Code128; Code93; Code39;
    Codabar; Code11; Msi; UpcA; UpcE; UpcE1; Ean13; Ean8; PDF417;
    PDF417Micro; Datamatrix; Code25; Interleaved25; ITF14; IATA25;
    Matrix25; Datalogic25; COOP25; Code32; Telepen; Dotcode;
    IDDocument; IDMRZ; IDPicture; IDSignature; Databar14;
    DatabarLimited; DatabarExpanded; PostalIMB; Postnet; Planet;
    AustralianPost; RoyalMail; KIX; JapanesePost; MaxiCode ].

(** The identifier of each enumerator. *)
Definition name (b : t) : string :=
  match b with
  | Aztec => "Aztec" | AztecCompact => "AztecCompact" | QR => "QR"
  | QRMicro => "QRMicro" | Code128 => "Code128" | Code93 => "Code93"
  | Code39 => "Code39" | Codabar => "Codabar" | Code11 => "Code11"
  | Msi => "Msi" | UpcA => "UpcA" | UpcE => "UpcE" | UpcE1 => "UpcE1"
  | Ean13 => "Ean13" | Ean8 => "Ean8" | PDF417 => "PDF417"
  | PDF417Micro => "PDF417Micro" | Datamatrix => "Datamatrix"
  | Code25 => "Code25" | Interleaved25 => "Interleaved25"
  | ITF14 => "ITF14" | IATA25 => "IATA25" | Matrix25 => "Matrix25"
  | Datalogic25 => "Datalogic25" | COOP25 => "COOP25"
  | Code32 => "Code32" | Telepen => "Telepen" | Dotcode => "Dotcode"
  | IDDocument => "IDDocument" | IDMRZ => "IDMRZ"
  | IDPicture => "IDPicture" | IDSignature => "IDSignature"
  | Databar14 => "Databar14" | DatabarLimited => "DatabarLimited"
  | DatabarExpanded => "DatabarExpanded" | PostalIMB => "PostalIMB"
  | Postnet => "Postnet" | Planet => "Planet"
  | AustralianPost => "AustralianPost" | RoyalMail => "RoyalMail"
  | KIX => "KIX" | JapanesePost => "JapanesePost"
  | MaxiCode => "MaxiCode"
  end.

(** The integer value of each enumerator: its position in the
    declaration, counted from zero. *)
Definition value (b : t) : Z :=
  match b with
  | Aztec => 0 | AztecCompact => 1 | QR => 2 | QRMicro => 3
  | Code128 => 4 | Code93 => 5 | Code39 => 6 | Codabar => 7
  | Code11 => 8 | Msi => 9 | UpcA => 10 | UpcE => 11 | UpcE1 => 12
  | Ean13 => 13 | Ean8 => 14 | PDF417 => 15 | PDF417Micro => 16
  | Datamatrix => 17 | Code25 => 18 | Interleaved25 => 19
  | ITF14 => 20 | IATA25 => 21 | Matrix25 => 22 | Datalogic25 => 23
  | COOP25 => 24 | Code32 => 25 | Telepen => 26 | Dotcode => 27
  | IDDocument => 28 | IDMRZ => 29 | IDPicture => 30
  | IDSignature => 31 | Databar14 => 32 | DatabarLimited => 33
  | DatabarExpanded => 34 | PostalIMB => 35 | Postnet => 36
  | Planet => 37 | AustralianPost => 38 | RoyalMail => 39 | KIX => 40
  | JapanesePost => 41 | MaxiCode => 42
  end.
End BarcodeType.

Module DecoderType.
Inductive t :=
| Aztec | AztecCompact | QR | QRMicro | Code128 | Code93 | Code39
| Codabar | Code11 | Msi | UpcA | UpcE | UpcE1 | Ean13 | Ean8 | PDF417
| PDF417Micro | Datamatrix | Code25 | Interleaved25 | ITF14 | IATA25
| Matrix25 | Datalogic25 | COOP25 | Code32 | Telepen | Dotcode
| IDDocument | Databar14 | DatabarLimited | DatabarExpanded
| PostalIMB | Postnet | Planet | AustralianPost | RoyalMail | KIX
| JapanesePost | MaxiCode.

Definition all : list t :=
  [ Aztec; AztecCompact; QR; QRMicro; Code128; Code93; Code39;
    Codabar; Code11; Msi; UpcA; UpcE; UpcE1; Ean13; Ean8; PDF417;
    PDF417Micro; Datamatrix; Code25; Interleaved25; ITF14; IATA25;
    Matrix25; Datalogic25; COOP25; Code32; Telepen; Dotcode;
    IDDocument; Databar14; DatabarLimited; DatabarExpanded;
    PostalIMB; Postnet; Planet; AustralianPost; RoyalMail; KIX;
    JapanesePost; MaxiCode ].

Definition name (d : t) : string :=
  match d with
  | Aztec => "Aztec" | AztecCompact => "AztecCompact" | QR => "QR"
  | QRMicro => "QRMicro" | Code128 => "Code128" | Code93 => "Code93"
  | Code39 => "Code39" | Codabar => "Codabar" | Code11 => "Code11"
  | Msi => "Msi" | UpcA => "UpcA" | UpcE => "UpcE" | UpcE1 => "UpcE1"
  | Ean13 => "Ean13" | Ean8 => "Ean8" | PDF417 => "PDF417"
  | PDF417Micro => "PDF417Micro" | Datamatrix => "Datamatrix"
  | Code25 => "Code25" | Interleaved25 => "Interleaved25"
  | ITF14 => "ITF14" | IATA25 => "IATA25" | Matrix25 => "Matrix25"
  | Datalogic25 => "Datalogic25" | COOP25 => "COOP25"
  | Code32 => "Code32" | Telepen => "Telepen" | Dotcode => "Dotcode"
  | IDDocument => "IDDocument"
  | Databar14 => "Databar14" | DatabarLimited => "DatabarLimited"
  | DatabarExpanded => "DatabarExpanded" | PostalIMB => "PostalIMB"
  | Postnet => "Postnet" | Planet => "Planet"
  | AustralianPost => "AustralianPost" | RoyalMail => "RoyalMail"
  | KIX => "KIX" | JapanesePost => "JapanesePost"
  | MaxiCode => "MaxiCode"
  end.

(** The integer value of each enumerator: its position in the
    declaration, counted from zero. *)
Definition value (d : t) : Z :=
  match d with
  | Aztec => 0 | AztecCompact => 1 | QR => 2 | QRMicro => 3
  | Code128 => 4 | Code93 => 5 | Code39 => 6 | Codabar => 7
  | Code11 => 8 | Msi => 9 | UpcA => 10 | UpcE => 11 | UpcE1 => 12
  | Ean13 => 13 | Ean8 => 14 | PDF417 => 15 | PDF417Micro => 16
  | Datamatrix => 17 | Code25 => 18 | Interleaved25 => 19
  | ITF14 => 20 | IATA25 => 21 | Matrix25 => 22 | Datalogic25 => 23
  | COOP25 => 24 | Code32 => 25 | Telepen => 26 | Dotcode => 27
  | IDDocument => 28 | Databar14 => 29 | DatabarLimited => 30
  | DatabarExpanded => 31 | PostalIMB => 32 | Postnet => 33
  | Planet => 34 | AustralianPost => 35 | RoyalMail => 36 | KIX => 37
  | JapanesePost => 38 | MaxiCode => 39
  end.

(** The enumerator an integer names, when it names one. *)
Definition of_value (z : Z) : option t :=
  find (fun d => Z.eqb (value d) z) all.

Definition eqb (a b : t) : bool := Z.eqb (value a) (value b).
End DecoderType.

(** The BarcodeType enumerator that carries the same identifier as a
  DecoderType enumerator, looked up by name. *)
Definition barcodeTypeOf (d : DecoderType.t) : option BarcodeType.t :=
  find (fun b => String.eqb (BarcodeType.name b) (DecoderType.name d))
       BarcodeType.all.

(** The DecoderType enumerator that carries the same identifier as a
  BarcodeType enumerator, looked up by name. *)
Definition decoderTypeOf (b : BarcodeType.t) : option DecoderType.t :=
  find (fun d => String.eqb (DecoderType.name d) (BarcodeType.name b))
       DecoderType.all.

Inductive LengthType := Unlimited.

(* ================================================================= *)
(** ** The base class [SpecificConfig] *)

(** A thrown [std::exception] with its [what()] message:
    [std::invalid_argument], the one the header throws, or any other
    class derived from [std::exception], as the engine may throw. *)
Inductive exception :=
| invalid_argument (what : string)
| other_exception (what : string).

Definition what_of (e : exception) : string :=
  match e with
  | invalid_argument w => w
  | other_exception w => w
  end.

(** [SpecificConfig::ChecksumType], inherited by the classes that do not
    declare one of their own ([Code25Config::ChecksumType] is this one). *)
Inductive ChecksumType := Disabled | Enabled.

Record SpecificConfig := mkSpecificConfig {
  enabled : bool;
  expectedCount : Z;
  minimumLength : Z;
  maximumLength : Z;
  decoderType : DecoderType.t;
  configTypeName : string
}.

(** [int SetLengthRange(int minimumLength, int maximumLength)]: the
    returned [int] or the exception thrown, paired with the object as the
    call leaves it. *)
Definition SetLengthRange (this : SpecificConfig) (minimumLength' maximumLength' : Z)
  : (Z + exception) * SpecificConfig :=
  if (minimumLength' >=? 0) && (maximumLength' >=? 0) then
    if (minimumLength' >? 0) && (maximumLength' >? 0)
       && (maximumLength' <? minimumLength') then
      (inr (invalid_argument "Maximum length can't be smaller than minimum"), this)
    else
      (inl 0,
       {| enabled := enabled this;
          expectedCount := expectedCount this;
          minimumLength := minimumLength';
          maximumLength := maximumLength';
          decoderType := decoderType this;
          configTypeName := configTypeName this |})
  else
    (inr (invalid_argument "Length must be positive number"), this).

(** Modelled from the spec: the constructor [SpecificConfig(DecoderType)]
    is declared in the header and defined in the engine library, which is
    not part of the sources.  The spec gives [enabled = false],
    [expectedCount = 0] (the latter is also the in-class initialiser of
    the header) and unconstrained, that is zero, length bounds; the type
    name is left empty for the derived constructor to fill in. *)
Definition SpecificConfig_ctor (d : DecoderType.t) : SpecificConfig :=
  {| enabled := false;
     expectedCount := 0;
     minimumLength := 0;
     maximumLength := 0;
     decoderType := d;
     configTypeName := "" |}.

Definition set_configTypeName (c : SpecificConfig) (n : string) : SpecificConfig :=
  {| enabled := enabled c;
     expectedCount := expectedCount c;
     minimumLength := minimumLength c;
     maximumLength := maximumLength c;
     decoderType := decoderType c;
     configTypeName := n |}.

Definition set_minimumLength (c : SpecificConfig) (n : Z) : SpecificConfig :=
  {| enabled := enabled c;
     expectedCount := expectedCount c;
     minimumLength := n;
     maximumLength := maximumLength c;
     decoderType := decoderType c;
     configTypeName := configTypeName c |}.

(* ================================================================= *)
(** ** The derived classes *)

Module Code11Config.
Inductive ChecksumType := Disabled | Single | Double.
End Code11Config.

Module Code39Config.
Inductive ChecksumType := Disabled | Enabled.
End Code39Config.

Module MsiConfig.
Inductive ChecksumType :=
| Disabled | Mod10 | Mod11 | Mod1010 | Mod1110 | Mod11IBM | Mod1110IBM.
End MsiConfig.

(** The data members a derived class adds to the base, with the value
    its in-class initialiser gives. *)
Inductive Members :=
| NoMembers
| Code11Members (checksumType : Code11Config.ChecksumType)
| Code39Members (checksumType : Code39Config.ChecksumType)
| MsiMembers (checksumType : MsiConfig.ChecksumType)
| Code25Members (checksumType : ChecksumType)
| DatamatrixMembers (dpmMode : Z)
| QRMembers (dpmMode : Z) (multiPartMerge : bool)
| QRMicroMembers (dpmMode : Z)
| UpcEMembers (expandToUPCA : bool)
| IDDocumentMembers (masterChecksumType : ChecksumType).

(** The forty classes derived from [SpecificConfig]. *)
Inductive ConfigClass :=
| Code11Config | Code39Config | TelepenConfig | PostalIMBConfig
| PostnetConfig | PlanetConfig | AustralianPostConfig | RoyalMailConfig
| JapanesePostConfig | KIXConfig | DotcodeConfig | Code32Config
| MsiConfig | Code25Config | IATA25Config | Matrix25Config
| Datalogic25Config | COOP25Config | Interleaved25Config | ITF14Config
| AztecConfig | AztecCompactConfig | MaxiCodeConfig | DatamatrixConfig
| QRConfig | QRMicroConfig | Code128Config | Code93Config
| CodabarConfig | UpcAConfig | UpcEConfig | UpcE1Config | Ean13Config
| Ean8Config | PDF417Config | PDF417MicroConfig | Databar14Config
| DatabarLimitedConfig | DatabarExpandedConfig | IDDocumentConfig.

Definition all_classes : list ConfigClass :=
  [ Code11Config; Code39Config; TelepenConfig; PostalIMBConfig;
    PostnetConfig; PlanetConfig; AustralianPostConfig; RoyalMailConfig;
    JapanesePostConfig; KIXConfig; DotcodeConfig; Code32Config;
    MsiConfig; Code25Config; IATA25Config; Matrix25Config;
    Datalogic25Config; COOP25Config; Interleaved25Config; ITF14Config;
    AztecConfig; AztecCompactConfig; MaxiCodeConfig; DatamatrixConfig;
    QRConfig; QRMicroConfig; Code128Config; Code93Config;
    CodabarConfig; UpcAConfig; UpcEConfig; UpcE1Config; Ean13Config;
    Ean8Config; PDF417Config; PDF417MicroConfig; Databar14Config;
    DatabarLimitedConfig; DatabarExpandedConfig; IDDocumentConfig ].

(** The [*_TYPENAME] macro each constructor assigns to
    [configTypeName]. *)
Definition TYPENAME (c : ConfigClass) : string :=
  match c with
  | AztecConfig => "Aztec"
  | AztecCompactConfig => "Aztec Compact"
  | MaxiCodeConfig => "MaxiCode"
  | QRConfig => "QR"
  | QRMicroConfig => "QR Micro"
  | Code128Config => "Code 128"
  | Code93Config => "Code 93"
  | Code39Config => "Code 39"
  | TelepenConfig => "Telepen"
  | DotcodeConfig => "Dotcode"
  | Code32Config => "Code 32"
  | CodabarConfig => "Codabar"
  | Code11Config => "Code 11"
  | MsiConfig => "MSI"
  | UpcAConfig => "Upc-A"
  | UpcEConfig => "Upc-E"
  | UpcE1Config => "Upc-E1"
  | Ean13Config => "Ean-13"
  | Ean8Config => "Ean-8"
  | PDF417Config => "PDF 417"
  | PDF417MicroConfig => "PDF 417 Micro"
  | DatamatrixConfig => "Data Matrix"
  | Code25Config => "Code 25"
  | Interleaved25Config => "Interleaved 2 of 5"
  | ITF14Config => "ITF 14"
  | IATA25Config => "IATA 25"
  | Matrix25Config => "Matrix 25"
  | Datalogic25Config => "Datalogic 25"
  | COOP25Config => "COOP 25"
  | Databar14Config => "Databar 14"
  | DatabarLimitedConfig => "Databar Limited"
  | DatabarExpandedConfig => "Databar Expanded"
  | PostalIMBConfig => "Intelligent Mail"
  | PostnetConfig => "Postnet"
  | PlanetConfig => "Planet"
  | AustralianPostConfig => "Australian Post"
  | RoyalMailConfig => "Royal Mail"
  | JapanesePostConfig => "Japanese Post"
  | KIXConfig => "PostNL KIX"
  | IDDocumentConfig => "ID Document"
  end.

(** The in-class member initialisers of each derived class. *)
Definition initial_members (c : ConfigClass) : Members :=
  match c with
  | Code11Config => Code11Members Code11Config.Disabled
  | Code39Config => Code39Members Code39Config.Disabled
  | MsiConfig => MsiMembers MsiConfig.Mod10
  | Code25Config | IATA25Config | Matrix25Config | Datalogic25Config
  | COOP25Config | Interleaved25Config => Code25Members Disabled
  | DatamatrixConfig => DatamatrixMembers 0
  | QRConfig => QRMembers 0 false
  | QRMicroConfig => QRMicroMembers 0
  | UpcEConfig | UpcE1Config => UpcEMembers false
  | IDDocumentConfig => IDDocumentMembers Disabled
  | _ => NoMembers
  end.

(** An object of a derived class: the base sub-object and the members
    the class adds. *)
Record ConfigObject := mkConfigObject {
  class : ConfigClass;
  base : SpecificConfig;
  members : Members
}.

(** The body of each derived constructor, run on the constructed base:
    every one assigns [configTypeName]; [MsiConfig] and [CodabarConfig]
    also assign [minimumLength]. *)
Definition ctor_body (c : ConfigClass) (b : SpecificConfig) : SpecificConfig :=
  let b := set_configTypeName b (TYPENAME c) in
  match c with
  | MsiConfig => set_minimumLength b 5
  | CodabarConfig => set_minimumLength b 4
  | _ => b
  end.

(** [XConfig(DecoderType decoderType) : SpecificConfig(decoderType) {...}]. *)
Definition construct (c : ConfigClass) (d : DecoderType.t) : ConfigObject :=
  {| class := c;
     base := ctor_body c (SpecificConfig_ctor d);
     members := initial_members c |}.

(** Whether the checksum selector of an object, when its class has one,
    is the [Disabled] enumerator of its set. *)
Definition checksum_disabled (m : Members) : bool :=
  match m with
  | Code11Members Code11Config.Disabled => true
  | Code11Members _ => false
  | Code39Members Code39Config.Disabled => true
  | Code39Members _ => false
  | MsiMembers MsiConfig.Disabled => true
  | MsiMembers _ => false
  | Code25Members Disabled => true
  | Code25Members _ => false
  | IDDocumentMembers Disabled => true
  | IDDocumentMembers _ => false
  | _ => true
  end.

(** [SetLengthRange] called on an object of a derived class: the
    inherited method works on the base sub-object. *)
Definition Object_SetLengthRange (o : ConfigObject) (minimumLength' maximumLength' : Z)
  : (Z + exception) * ConfigObject :=
  let (r, b) := SetLengthRange (base o) minimumLength' maximumLength' in
  (r, {| class := class o; base := b; members := members o |}).

(** The condition under which the spec lets a length range through. *)
Definition valid_length_range (lo hi : Z) : Prop :=
  lo >= 0 /\ hi >= 0 /\ (lo = 0 \/ hi = 0 \/ hi >= lo).

(* ================================================================= *)
(** ** C strings and the cJSON document tree *)

(** [s.c_str()] as a C API reads it: the characters before the first
    NUL. *)
Fixpoint c_str (s : string) : string :=
  match s with
  | EmptyString => EmptyString
  | String c rest =>
      if Ascii.eqb c Ascii.zero then EmptyString else String c (c_str rest)
  end.

(** Whether a string is free of NUL characters. *)
Fixpoint nul_free (s : string) : bool :=
  match s with
  | EmptyString => true
  | String c rest => negb (Ascii.eqb c Ascii.zero) && nul_free rest
  end.

(** A cJSON item.  The children of an object are kept in insertion
    order, duplicates included, as the linked list of the library keeps
    them.  The numbers this program stores are [int]s. *)
Inductive cJSON :=
| cJSON_Number (valueint : Z)
| cJSON_String (valuestring : string)
| cJSON_Array (items : list cJSON)
| cJSON_Object (children : list (string * cJSON)).

Definition cJSON_CreateObject : cJSON := cJSON_Object [].
Definition cJSON_CreateArray : cJSON := cJSON_Array [].

(** [cJSON_AddItemToObject]: the item is linked after the last child. *)
Definition cJSON_AddItemToObject (object : cJSON) (name : string) (item : cJSON) : cJSON :=
  match object with
  | cJSON_Object children => cJSON_Object (children ++ [(name, item)])
  | other => other
  end.

Definition cJSON_AddNumberToObject (object : cJSON) (name : string) (number : Z) : cJSON :=
  cJSON_AddItemToObject object name (cJSON_Number number).

Definition cJSON_AddStringToObject (object : cJSON) (name : string) (str : string) : cJSON :=
  cJSON_AddItemToObject object name (cJSON_String str).

Definition cJSON_AddItemToArray (array : cJSON) (item : cJSON) : cJSON :=
  match array with
  | cJSON_Array items => cJSON_Array (items ++ [item])
  | other => other
  end.

(** The fields of an object; no fields for any other item. *)
Definition fields (doc : cJSON) : list (string * cJSON) :=
  match doc with
  | cJSON_Object children => children
  | _ => []
  end.

(* ================================================================= *)
(** ** JavaScript values as N-API hands them to the binding *)

(** A JavaScript number: the rational a finite double denotes, or one of
    the non-finite values. *)
Inductive double :=
| Finite (q : Q)
| NaN
| Infinity (negative : bool).

Definition of_int (z : Z) : double := Finite (inject_Z z).

(** [Napi::Number::Int32Value()]: the fraction is dropped (rounding
    towards zero), the integer is reduced to its low 32 bits, and a
    non-finite number gives zero. *)
Definition Int32Value (d : double) : Z :=
  match d with
  | Finite q => wrap32 (Z.quot (Qnum q) (Z.pos (Qden q)))
  | NaN => 0
  | Infinity _ => 0
  end.

Inductive Value :=
| VUndefined
| VNull
| VBoolean (b : bool)
| VNumber (d : double)
| VString (s : string)
| VArray (elements : list Value)
| VBuffer (data : list Byte.byte)
| VObject.

(** The record the engine returns for one decoded symbol.  Its
    declaration is in [Barkoder.hpp], outside the sources; the binding
    reads the three members below and iterates [extra] as pairs of
    strings. *)
Record BaseResult := mkBaseResult {
  barcodeTypeName : string;
  textualData : string;
  extra : list (string * string)
}.

(** The placeholder read by an index outside a vector; no path of the
    binding reaches it. *)
Definition no_result : BaseResult :=
  {| barcodeTypeName := ""; textualData := ""; extra := [] |}.

(** What a binding function hands back to JavaScript: the returned
    value, or a pending [TypeError]. *)
Inductive Reply :=
| RString (s : string)
| RBoolean (b : bool)
| RTypeError (message : string).

(* ================================================================= *)
(** ** The marshaling of a result sequence ([DecodeImage], lines 207-274) *)

(** [for (const auto& pair : r.extra) cJSON_AddStringToObject(obj, ...)] *)
Definition add_extra (object : cJSON) (r : BaseResult) : cJSON :=
  fold_left
    (fun obj pair =>
       cJSON_AddStringToObject obj (c_str (fst pair)) (c_str (snd pair)))
    (extra r) object.

(** The body of the loop over [i] in the multiple-result branch. *)
Definition singleResult (r : BaseResult) : cJSON :=
  let o := cJSON_CreateObject in
  let o := cJSON_AddStringToObject o "barcodeTypeName" (c_str (barcodeTypeName r)) in
  let o := cJSON_AddStringToObject o "textualData" (c_str (textualData r)) in
  add_extra o r.

Definition marshal (results : list BaseResult) : cJSON :=
  let resultsCount := wrap32 (Z.of_nat (List.length results)) in
  if resultsCount =? 0 then
    let root := cJSON_CreateObject in
    let root := cJSON_AddNumberToObject root "resultsCount" 0 in
    let root := cJSON_AddStringToObject root "barcodeTypeName" "" in
    cJSON_AddStringToObject root "textualData" ""
  else if resultsCount =? 1 then
    let r := nth 0 results no_result in
    let root := cJSON_CreateObject in
    let root := cJSON_AddNumberToObject root "resultsCount" 1 in
    let root := cJSON_AddStringToObject root "barcodeTypeName" (c_str (barcodeTypeName r)) in
    let root := cJSON_AddStringToObject root "textualData" (c_str (textualData r)) in
    add_extra root r
  else
    let root := cJSON_CreateObject in
    let root := cJSON_AddNumberToObject root "resultsCount" resultsCount in
    let resultsArray :=
      fold_left
        (fun arr i => cJSON_AddItemToArray arr (singleResult (nth i results no_result)))
        (seq 0 (Z.to_nat resultsCount)) cJSON_CreateArray in
    cJSON_AddItemToObject root "results" resultsArray.

(** The field an auxiliary pair becomes. *)
Definition promoted (pair : string * string) : string * cJSON :=
  (c_str (fst pair), cJSON_String (c_str (snd pair))).

(** *** The response document in the words of the spec

    The three shapes of section 4.4, chosen by the length of the
    sequence, with every string written as it is. *)

Definition spec_auxiliary (r : BaseResult) : list (string * cJSON) :=
  map (fun pair => (fst pair, cJSON_String (snd pair))) (extra r).

Definition spec_subdocument (r : BaseResult) : cJSON :=
  cJSON_Object
    (("barcodeTypeName", cJSON_String (barcodeTypeName r))
     :: ("textualData", cJSON_String (textualData r))
     :: spec_auxiliary r).

Definition spec_document (results : list BaseResult) : cJSON :=
  match results with
  | [] =>
      cJSON_Object
        [ ("resultsCount", cJSON_Number 0);
          ("barcodeTypeName", cJSON_String "");
          ("textualData", cJSON_String "") ]
  | [r] =>
      cJSON_Object
        (("resultsCount", cJSON_Number 1)
         :: ("barcodeTypeName", cJSON_String (barcodeTypeName r))
         :: ("textualData", cJSON_String (textualData r))
         :: spec_auxiliary r)
  | _ =>
      cJSON_Object
        [ ("resultsCount", cJSON_Number (Z.of_nat (List.length results)));
          ("results", cJSON_Array (map spec_subdocument results)) ]
  end.

(** Whether every string of a result is free of NUL characters. *)
Definition nul_free_result (r : BaseResult) : bool :=
  nul_free (barcodeTypeName r) && nul_free (textualData r)
  && forallb (fun pair => nul_free (fst pair) && nul_free (snd pair)) (extra r).

(** A result whose payload holds a NUL between two letters. *)
Definition result_with_NUL : BaseResult :=
  {| barcodeTypeName := "QR";
     textualData := String "A" (String Ascii.zero (String "B" EmptyString));
     extra := [] |}.

(* ================================================================= *)
(** ** The engine as the binding sees it *)

Inductive BKGlobalOption :=
| BKGlobalOption_SetMaximumThreads
| BKGlobalOption_UseGPU.

Module ConfigResponse.
Inductive Result := Success | Error.
End ConfigResponse.

Section Engine.

(** The C++ type [float]; its values and their printing are left to the
    platform. *)
Variable float : Type.

Record Rect := mkRect {
  left : float;
  top : float;
  width : float;
  height : float
}.

(** The engine's [Config] object ([Config.hpp] is outside the sources).
    The binding writes the members [decodingSpeed] and
    [maximumResultsCount]; the slots and the region of interest are the
    ones the spec describes.  [decodingSpeed] holds the integer behind
    the [DecodingSpeed] value it was given. *)
Record Config := mkConfig {
  decodingSpeed : Z;
  maximumResultsCount : Z;
  slots : DecoderType.t -> ConfigObject;
  regionOfInterest : Rect
}.

(** One call into the engine library. *)
Inductive EngineCall :=
| GetLibVersion_call
| InitializeWithLicenseKey_call (licenseKey : string)
| DecodeImageMemory_call (cfg : Config) (imageData : list Byte.byte) (w h : Z).

(** What [Config::InitializeWithLicenseKey] returns.  [GetConfig] is
    read only when [GetResult] is not [Error]. *)
Record ConfigResponse := mkConfigResponse {
  GetResult : ConfigResponse.Result;
  Message : string;
  GetConfig : Config
}.

(** The engine library and the other collaborators of the binding.  An
    engine function sees the calls made so far, so its answers may depend
    on the past; it returns a value or throws.  [DecodeImageMemory] is
    handed the pointer to the registry and may write through it:
    [DecodeImageMemory_leaves] is the registry as the call leaves it,
    whether it returns or throws.  [SetGlobalOption_throws] is the
    exception a call of [Config::SetGlobalOption] ends with, if it ends
    with one. *)
Record SDK := mkSDK {
  FloatValue : double -> float;
  float_to_string : float -> string;
  cJSON_Print : cJSON -> string;
  GetLibVersion : list EngineCall -> string + exception;
  InitializeWithLicenseKey : list EngineCall -> string -> ConfigResponse + exception;
  SetGlobalOption_throws : list EngineCall -> BKGlobalOption -> Z -> option exception;
  DecodeImageMemory :
    list EngineCall -> Config -> list Byte.byte -> Z -> Z -> list BaseResult + exception;
  DecodeImageMemory_leaves :
    list EngineCall -> Config -> list Byte.byte -> Z -> Z -> Config;
  unknown_decoder_what : string
}.

(** The process state the binding works on: the global [config] pointer
    with the registry it points to ([None] is [nullptr]), for each of the
    two global options the value of the last [Config::SetGlobalOption]
    call that returned ([None] until one does) and the calls made into
    the version, licence and decode functions of the engine. *)
Record State := mkState {
  config : option Config;
  maximumThreads : option Z;
  useGPU : option Z;
  calls : list EngineCall
}.

Definition initial_state : State :=
  {| config := None; maximumThreads := None; useGPU := None; calls := [] |}.

Definition set_config (st : State) (c : Config) : State :=
  {| config := Some c;
     maximumThreads := maximumThreads st;
     useGPU := useGPU st;
     calls := calls st |}.

Definition record_call (st : State) (c : EngineCall) : State :=
  {| config := config st;
     maximumThreads := maximumThreads st;
     useGPU := useGPU st;
     calls := calls st ++ [c] |}.

(** A write through the [config] pointer, [config->member = value].  No
    path of the binding makes one while the pointer is null. *)
Definition write_config (st : State) (update : Config -> Config) : State :=
  match config st with
  | Some c => set_config st (update c)
  | None => st
  end.

Definition set_decodingSpeed (c : Config) (v : Z) : Config :=
  {| decodingSpeed := v;
     maximumResultsCount := maximumResultsCount c;
     slots := slots c;
     regionOfInterest := regionOfInterest c |}.

Definition set_maximumResultsCount (c : Config) (v : Z) : Config :=
  {| decodingSpeed := decodingSpeed c;
     maximumResultsCount := v;
     slots := slots c;
     regionOfInterest := regionOfInterest c |}.

Definition set_enabled (o : ConfigObject) (b : bool) : ConfigObject :=
  {| class := class o;
     base := {| enabled := b;
                expectedCount := expectedCount (base o);
                minimumLength := minimumLength (base o);
                maximumLength := maximumLength (base o);
                decoderType := decoderType (base o);
                configTypeName := configTypeName (base o) |};
     members := members o |}.

(** Whether the slot of a decoder type is enabled. *)
Definition is_enabled (c : Config) (d : DecoderType.t) : bool :=
  enabled (base (slots c d)).

(** Whether an integer is the value of a [DecoderType] enumerator. *)
Definition known_decoder (z : Z) : bool :=
  match DecoderType.of_value z with Some _ => true | None => false end.

(** Modelled from the spec: [Config::SetEnabledDecoders] is defined in
    the engine library, outside the sources.  By the spec it replaces the
    enabled set (a decoder type in the list is enabled, one absent from
    it is disabled) and rejects a list that holds an unknown or
    out-of-range value as a whole, changing nothing.  The vector holds
    [DecoderType] values obtained by [static_cast] from [int], given here
    by their integers. *)
Definition Config_SetEnabledDecoders (what : string) (c : Config) (decoders : list Z)
  : Config + exception :=
  if forallb known_decoder decoders then
    inl {| decodingSpeed := decodingSpeed c;
           maximumResultsCount := maximumResultsCount c;
           slots := fun d =>
             set_enabled (slots c d)
                         (existsb (Z.eqb (DecoderType.value d)) decoders);
           regionOfInterest := regionOfInterest c |}
  else inr (invalid_argument what).

(** Modelled from the spec: [Config::SetRegionOfInterest] is defined in
    the engine library, outside the sources.  By the spec it stores the
    four values and rejects none. *)
Definition Config_SetRegionOfInterest (c : Config) (l t w h : float) : Config :=
  {| decodingSpeed := decodingSpeed c;
     maximumResultsCount := maximumResultsCount c;
     slots := slots c;
     regionOfInterest := {| left := l; top := t; width := w; height := h |} |}.

(* ================================================================= *)
(** ** The exported functions of barkoder_node.cpp *)

Variable sdk : SDK.

Definition NOT_INITIALIZED : string := "ERROR: SDK not initialized".
Definition BUFFER_TOO_SMALL : string :=
  "ERROR: Buffer too small for specified dimensions".

Definition GetVersion (info : list Value) (st : State) : Reply * State :=
  let st' := record_call st GetLibVersion_call in
  match GetLibVersion sdk (calls st) with
  | inl version => (RString version, st')
  | inr e => (RTypeError (what_of e), st')
  end.

(** Modelled from the spec: [Config::SetGlobalOption(option, value)] is
    a static function of the engine library, outside the sources.  By the
    spec the thread cap and the hardware-acceleration toggle are
    process-wide settings of the engine.  A call that returns has set
    the option to the value; a call that throws has set nothing. *)
Definition SetGlobalOption (o : BKGlobalOption) (v : Z) (st : State)
  : State + exception :=
  match SetGlobalOption_throws sdk (calls st) o v with
  | Some e => inr e
  | None =>
      inl match o with
          | BKGlobalOption_SetMaximumThreads =>
              {| config := config st; maximumThreads := Some v;
                 useGPU := useGPU st; calls := calls st |}
          | BKGlobalOption_UseGPU =>
              {| config := config st; maximumThreads := maximumThreads st;
                 useGPU := Some v; calls := calls st |}
          end
  end.

(** The reply of the [catch] block of [Initialize]. *)
Definition initialization_exception (e : exception) : Reply :=
  RString ("ERROR: " ++ ("Exception during initialization: " ++ what_of e)).

(** The statements of the [try] block run in the order of the source:
    the pointer is assigned (line 56) before the two global options are
    set and before the speed and the cap are written, and the [catch]
    block replies without undoing what was done. *)
Definition Initialize (info : list Value) (st : State) : Reply * State :=
  match info with
  | VString licenseKey :: _ =>
      let st1 := record_call st (InitializeWithLicenseKey_call licenseKey) in
      match InitializeWithLicenseKey sdk (calls st) licenseKey with
      | inr e => (initialization_exception e, st1)
      | inl response =>
          let message := Message response in
          match GetResult response with
          | ConfigResponse.Error => (RString ("ERROR: " ++ message), st1)
          | ConfigResponse.Success =>
              let st2 := set_config st1 (GetConfig response) in
              match SetGlobalOption BKGlobalOption_SetMaximumThreads 1 st2 with
              | inr e => (initialization_exception e, st2)
              | inl st3 =>
                  match SetGlobalOption BKGlobalOption_UseGPU 0 st3 with
                  | inr e => (initialization_exception e, st3)
                  | inl st4 =>
                      let st5 :=
                        write_config st4
                          (fun c => set_decodingSpeed c (DecodingSpeed_value Normal)) in
                      let st6 :=
                        write_config st5 (fun c => set_maximumResultsCount c 1) in
                      (RString ("SUCCESS: " ++ message), st6)
                  end
              end
          end
      end
  | _ => (RTypeError "License key string expected", st)
  end.

(** Whether an [initialize] call with these arguments in this state gets
    a registry from the engine: the argument is a string and
    [Config::InitializeWithLicenseKey] returns a response whose result is
    not [Error]. *)
Definition licence_accepted (info : list Value) (st : State) : bool :=
  match info with
  | VString licenseKey :: _ =>
      match InitializeWithLicenseKey sdk (calls st) licenseKey with
      | inl response =>
          match GetResult response with
          | ConfigResponse.Success => true
          | ConfigResponse.Error => false
          end
      | inr _ => false
      end
  | _ => false
  end.

Definition IsInitialized (info : list Value) (st : State) : Reply * State :=
  (RBoolean (match config st with Some _ => true | None => false end), st).

(** The loop that collects the numbers of the array, cast to
    [DecoderType]; an element that is not a number is passed over. *)
Definition collect_decoders (decodersArray : list Value) : list Z :=
  fold_left
    (fun enabledDecoders element =>
       match element with
       | VNumber n => (enabledDecoders ++ [Int32Value n])%list
       | _ => enabledDecoders
       end)
    decodersArray [].

Definition SetEnabledDecoders (info : list Value) (st : State) : Reply * State :=
  match config st with
  | None => (RString NOT_INITIALIZED, st)
  | Some c =>
      match info with
      | VArray decodersArray :: _ =>
          let enabledDecoders := collect_decoders decodersArray in
          match Config_SetEnabledDecoders (unknown_decoder_what sdk) c enabledDecoders with
          | inl c' =>
              (RString ("SUCCESS: Enabled "
                        ++ (to_string (Z.of_nat (List.length enabledDecoders))
                        ++ " decoders")),
               set_config st c')
          | inr e => (RString ("ERROR: " ++ what_of e), st)
          end
      | _ => (RString "ERROR: Array of decoder types expected", st)
      end
  end.

Definition SetDecodingSpeed (info : list Value) (st : State) : Reply * State :=
  match config st with
  | None => (RString NOT_INITIALIZED, st)
  | Some c =>
      match info with
      | VNumber n :: _ =>
          let speed := Int32Value n in
          (RString ("SUCCESS: Decoding speed set to " ++ to_string speed),
           set_config st (set_decodingSpeed c speed))
      | _ => (RString "ERROR: Speed integer expected", st)
      end
  end.

Definition SetRegionOfInterest (info : list Value) (st : State) : Reply * State :=
  match config st with
  | None => (RString NOT_INITIALIZED, st)
  | Some c =>
      match info with
      | VNumber a0 :: VNumber a1 :: VNumber a2 :: VNumber a3 :: _ =>
          let l := FloatValue sdk a0 in
          let t := FloatValue sdk a1 in
          let w := FloatValue sdk a2 in
          let h := FloatValue sdk a3 in
          (RString ("SUCCESS: ROI set to ("
                    ++ (float_to_string sdk l ++ ("," ++ (float_to_string sdk t
                    ++ ("," ++ (float_to_string sdk w ++ ("," ++ (float_to_string sdk h
                    ++ ")")))))))),
           set_config st (Config_SetRegionOfInterest c l t w h))
      | _ => (RString "ERROR: Four numbers expected (left, top, width, height)", st)
      end
  end.

(** The guard of line 200: [bufferLength < static_cast<size_t>(width * height)].
    The product is an [int]; a product outside the range of [int] is
    taken to wrap around, as two's complement arithmetic does, and the
    conversion to [size_t] is modulo [2^64]. *)
Definition buffer_too_small (bufferLength w h : Z) : bool :=
  bufferLength <? to_size_t (wrap32 (w * h)).

Definition DecodeImage (info : list Value) (st : State) : Reply * State :=
  match config st with
  | None => (RString NOT_INITIALIZED, st)
  | Some c =>
      match info with
      | VBuffer imageData :: VNumber a1 :: VNumber a2 :: _ =>
          let w := Int32Value a1 in
          let h := Int32Value a2 in
          let bufferLength := Z.of_nat (List.length imageData) in
          if buffer_too_small bufferLength w h then
            (RString BUFFER_TOO_SMALL, st)
          else
            let st' :=
              set_config
                (record_call st (DecodeImageMemory_call c imageData w h))
                (DecodeImageMemory_leaves sdk (calls st) c imageData w h) in
            match DecodeImageMemory sdk (calls st) c imageData w h with
            | inl results => (RString (cJSON_Print sdk (marshal results)), st')
            | inr e => (RString ("ERROR: " ++ what_of e), st')
            end
      | _ =>
          (RString "ERROR: Buffer and two numbers expected (imageBuffer, width, height)", st)
      end
  end.

(** The functions [Init] exports, by their JavaScript names. *)
Inductive Export :=
| getVersion | initialize | isInitialized | setEnabledDecoders
| setDecodingSpeed | setRegionOfInterest | decodeImage.

Definition call (f : Export) : list Value -> State -> Reply * State :=
  match f with
  | getVersion => GetVersion
  | initialize => Initialize
  | isInitialized => IsInitialized
  | setEnabledDecoders => SetEnabledDecoders
  | setDecodingSpeed => SetDecodingSpeed
  | setRegionOfInterest => SetRegionOfInterest
  | decodeImage => DecodeImage
  end.

(** A JavaScript program's use of the module: the calls it makes, in
    order, each with the reply it got. *)
Fixpoint run (program : list (Export * list Value)) (st : State)
  : list (Export * Reply) * State :=
  match program with
  | [] => ([], st)
  | (f, info) :: rest =>
      let (r, st1) := call f info st in
      let (log, st2) := run rest st1 in
      ((f, r) :: log, st2)
  end.

(** Whether some [initialize] call of the program, run from the given
    state, gets a registry from the engine. *)
Fixpoint some_licence_accepted (program : list (Export * list Value)) (st : State)
  : bool :=
  match program with
  | [] => false
  | (f, info) :: rest =>
      match f with
      | initialize => licence_accepted info st
      | _ => false
      end
      || some_licence_accepted rest (snd (call f info st))
  end.

End Engine.

(* ================================================================= *)
(** ** Vocabulary of the properties *)

(** The exported functions that configure the registry or decode. *)
Definition needs_config (f : Export) : bool :=
  match f with
  | setEnabledDecoders | setDecodingSpeed | setRegionOfInterest | decodeImage => true
  | getVersion | initialize | isInitialized => false
  end.

(** A reply that reports success: a string that starts with [SUCCESS: ]. *)
Definition succeeded (r : Reply) : Prop :=
  exists message, r = RString ("SUCCESS: " ++ message).

(** The test [SetLengthRange] makes before it stores a range. *)
Definition length_range_accepted (range : Z * Z) : bool :=
  let (lo, hi) := range in
  (lo >=? 0) && (hi >=? 0) && negb ((lo >? 0) && (hi >? 0) && (hi <? lo)).

(** An object after a sequence of [SetLengthRange] calls, the caller
    catching the exception of each call that throws. *)
Definition SetLengthRange_all (this : SpecificConfig) (ranges : list (Z * Z))
  : SpecificConfig :=
  fold_left (fun o range => snd (SetLengthRange o (fst range) (snd range)))
            ranges this.

(** The number of arguments an exported function reads. *)
Definition arity (f : Export) : nat :=
  match f with
  | getVersion | isInitialized => 0
  | initialize | setEnabledDecoders | setDecodingSpeed => 1
  | decodeImage => 3
  | setRegionOfInterest => 4
  end.

(** The argument test each exported function starts with:
    [info.Length() < n || !info[i].Is...()], negated. *)
Definition args_ok (f : Export) (info : list Value) : bool :=
  match f, info with
  | getVersion, _ => true
  | isInitialized, _ => true
  | initialize, VString _ :: _ => true
  | setEnabledDecoders, VArray _ :: _ => true
  | setDecodingSpeed, VNumber _ :: _ => true
  | setRegionOfInterest, VNumber _ :: VNumber _ :: VNumber _ :: VNumber _ :: _ => true
  | decodeImage, VBuffer _ :: VNumber _ :: VNumber _ :: _ => true
  | _, _ => false
  end.

(** What each exported function answers when that test fails. *)
Definition argument_error (f : Export) : Reply :=
  match f with
  | initialize => RTypeError "License key string expected"
  | setEnabledDecoders => RString "ERROR: Array of decoder types expected"
  | setDecodingSpeed => RString "ERROR: Speed integer expected"
  | setRegionOfInterest =>
      RString "ERROR: Four numbers expected (left, top, width, height)"
  | decodeImage =>
      RString "ERROR: Buffer and two numbers expected (imageBuffer, width, height)"
  | getVersion | isInitialized => RString ""
  end.

(** Whether an exported function calls into the engine library for the
    version, the licence or a decode. *)
Definition may_call_engine (f : Export) : bool :=
  match f with
  | getVersion | initialize | decodeImage => true
  | _ => false
  end.

Definition IsNumber (v : Value) : bool :=
  match v with VNumber _ => true | _ => false end.

(* ================================================================= *)
(** ** A stand-in engine

    The properties below hold for every engine.  The examples need one
    to run on: it knows a single licence key, finds no symbol in any
    image, keeps a [float] as the number it came from and prints
    documents without white space. *)

Definition class_of (d : DecoderType.t) : ConfigClass :=
  match d with
  | DecoderType.Aztec => AztecConfig
  | DecoderType.AztecCompact => AztecCompactConfig
  | DecoderType.QR => QRConfig
  | DecoderType.QRMicro => QRMicroConfig
  | DecoderType.Code128 => Code128Config
  | DecoderType.Code93 => Code93Config
  | DecoderType.Code39 => Code39Config
  | DecoderType.Codabar => CodabarConfig
  | DecoderType.Code11 => Code11Config
  | DecoderType.Msi => MsiConfig
  | DecoderType.UpcA => UpcAConfig
  | DecoderType.UpcE => UpcEConfig
  | DecoderType.UpcE1 => UpcE1Config
  | DecoderType.Ean13 => Ean13Config
  | DecoderType.Ean8 => Ean8Config
  | DecoderType.PDF417 => PDF417Config
  | DecoderType.PDF417Micro => PDF417MicroConfig
  | DecoderType.Datamatrix => DatamatrixConfig
  | DecoderType.Code25 => Code25Config
  | DecoderType.Interleaved25 => Interleaved25Config
  | DecoderType.ITF14 => ITF14Config
  | DecoderType.IATA25 => IATA25Config
  | DecoderType.Matrix25 => Matrix25Config
  | DecoderType.Datalogic25 => Datalogic25Config
  | DecoderType.COOP25 => COOP25Config
  | DecoderType.Code32 => Code32Config
  | DecoderType.Telepen => TelepenConfig
  | DecoderType.Dotcode => DotcodeConfig
  | DecoderType.IDDocument => IDDocumentConfig
  | DecoderType.Databar14 => Databar14Config
  | DecoderType.DatabarLimited => DatabarLimitedConfig
  | DecoderType.DatabarExpanded => DatabarExpandedConfig
  | DecoderType.PostalIMB => PostalIMBConfig
  | DecoderType.Postnet => PostnetConfig
  | DecoderType.Planet => PlanetConfig
  | DecoderType.AustralianPost => AustralianPostConfig
  | DecoderType.RoyalMail => RoyalMailConfig
  | DecoderType.KIX => KIXConfig
  | DecoderType.JapanesePost => JapanesePostConfig
  | DecoderType.MaxiCode => MaxiCodeConfig
  end.

(** A registry as the stand-in engine hands it out: every slot freshly
    constructed, speed [Slow], at most five results. *)
Definition sample_config : Config double :=
  {| decodingSpeed := DecodingSpeed_value Slow;
     maximumResultsCount := 5;
     slots := fun d => construct (class_of d) d;
     regionOfInterest :=
       {| left := of_int 0; top := of_int 0;
          width := of_int 100; height := of_int 100 |} |}.

Fixpoint print_compact (item : cJSON) : string :=
  match item with
  | cJSON_Number n => to_string n
  | cJSON_String s => ("'" ++ (s ++ "'"))%string
  | cJSON_Array items =>
      ("[" ++ (fold_right
                 (fun x acc => (print_compact x ++ (";" ++ acc))%string)
                 "]" items))%string
  | cJSON_Object children =>
      ("{" ++ (fold_right
                 (fun kv acc =>
                    (fst kv ++ (":" ++ (print_compact (snd kv) ++ (";" ++ acc))))%string)
                 "}" children))%string
  end.

Definition sample_sdk : SDK double :=
  {| FloatValue := fun d => d;
     float_to_string := fun d => to_string (Int32Value d);
     cJSON_Print := print_compact;
     GetLibVersion := fun _ => inl "1.0.0";
     InitializeWithLicenseKey := fun _ licenseKey =>
       if String.eqb licenseKey "LICENSE" then
         inl {| GetResult := ConfigResponse.Success;
                Message := "License valid";
                GetConfig := sample_config |}
       else
         inl {| GetResult := ConfigResponse.Error;
                Message := "Invalid license key";
                GetConfig := sample_config |};
     SetGlobalOption_throws := fun _ _ _ => None;
     DecodeImageMemory := fun _ _ _ _ _ => inl [];
     DecodeImageMemory_leaves := fun _ c _ _ _ => c;
     unknown_decoder_what := "Unknown decoder type" |}.

(** The same engine with a fault: it refuses the hardware-acceleration
    option with an exception. *)
Definition faulty_sdk : SDK double :=
  {| FloatValue := FloatValue sample_sdk;
     float_to_string := float_to_string sample_sdk;
     cJSON_Print := cJSON_Print sample_sdk;
     GetLibVersion := GetLibVersion sample_sdk;
     InitializeWithLicenseKey := InitializeWithLicenseKey sample_sdk;
     SetGlobalOption_throws := fun _ o _ =>
       match o with
       | BKGlobalOption_UseGPU => Some (other_exception "GPU option refused")
       | BKGlobalOption_SetMaximumThreads => None
       end;
     DecodeImageMemory := DecodeImageMemory sample_sdk;
     DecodeImageMemory_leaves := DecodeImageMemory_leaves sample_sdk;
     unknown_decoder_what := unknown_decoder_what sample_sdk |}.

(** The process after a first successful [initialize("LICENSE")]. *)
Definition sample_state : State double :=
  snd (Initialize sample_sdk [VString "LICENSE"] (initial_state double)).

(** The registry in place in [sample_state]. *)
Definition sample_registry : Config double :=
  set_maximumResultsCount
    (set_decodingSpeed sample_config (DecodingSpeed_value Normal)) 1.

(** A program that never gets a licence accepted. *)
Definition unlicensed_program : list (Export * list Value) :=
  [ (initialize, [VString "WRONG"]);
    (setDecodingSpeed, [VNumber (of_int 2)]);
    (initialize, []);
    (isInitialized, []) ].

(* ================================================================= *)
(** * Properties *)

(* ================================================================= *)
(** ** The length range of a symbology configuration *)

Lemma valid_length_range_dec (lo hi : Z) :
  valid_length_range lo hi <->
  ((lo >=? 0) && (hi >=? 0)
   && negb ((lo >? 0) && (hi >? 0) && (hi <? lo))) = true.
Proof.
  unfold valid_length_range.
  rewrite !andb_true_iff, negb_true_iff, !andb_false_iff.
  rewrite !Z.geb_le, !Z.gtb_ltb, !Z.ltb_ge. lia.
Qed.

Lemma SetLengthRange_accepts (this : SpecificConfig) (lo hi : Z) :
  valid_length_range lo hi ->
  SetLengthRange this lo hi =
    (inl 0, {| enabled := enabled this;
               expectedCount := expectedCount this;
               minimumLength := lo;
               maximumLength := hi;
               decoderType := decoderType this;
               configTypeName := configTypeName this |}).
Proof.
  intro H. apply valid_length_range_dec in H.
  apply andb_true_iff in H as [H1 H2].
  apply negb_true_iff in H2.
  unfold SetLengthRange. rewrite H1, H2. reflexivity.
Qed.

Lemma SetLengthRange_rejects (this : SpecificConfig) (lo hi : Z) :
  ~ valid_length_range lo hi ->
  exists what, SetLengthRange this lo hi = (inr (invalid_argument what), this).
Proof.
  intro H. rewrite valid_length_range_dec in H.
  unfold SetLengthRange.
  destruct ((lo >=? 0) && (hi >=? 0)) eqn:E1; [| eauto].
  destruct ((lo >? 0) && (hi >? 0) && (hi <? lo)) eqn:E2; [eauto |].
  exfalso. apply H. reflexivity.
Qed.

(** C1. For an object of any configuration class and all integers
    [lo], [hi]: the call [SetLengthRange(lo, hi)] returns (with 0, having
    stored [lo] as [minimumLength] and [hi] as [maximumLength] and nothing
    else) exactly when [lo >= 0], [hi >= 0] and ([lo = 0] or [hi = 0] or
    [hi >= lo]); in every other case it throws [std::invalid_argument]
    and the object, its two bounds included, is what it was before the
    call. *)
Theorem SetLengthRange_validates (o : ConfigObject) (lo hi : Z) :
  (valid_length_range lo hi <->
     exists r o', Object_SetLengthRange o lo hi = (inl r, o'))
  /\ (valid_length_range lo hi ->
        exists o', Object_SetLengthRange o lo hi = (inl 0, o')
          /\ minimumLength (base o') = lo
          /\ maximumLength (base o') = hi
          /\ enabled (base o') = enabled (base o)
          /\ expectedCount (base o') = expectedCount (base o)
          /\ decoderType (base o') = decoderType (base o)
          /\ configTypeName (base o') = configTypeName (base o)
          /\ class o' = class o /\ members o' = members o)
  /\ (~ valid_length_range lo hi ->
        exists what,
          Object_SetLengthRange o lo hi = (inr (invalid_argument what), o)
          /\ minimumLength (base (snd (Object_SetLengthRange o lo hi)))
               = minimumLength (base o)
          /\ maximumLength (base (snd (Object_SetLengthRange o lo hi)))
               = maximumLength (base o)).
Proof.
  assert (Hacc : valid_length_range lo hi ->
            exists o', Object_SetLengthRange o lo hi = (inl 0, o')
              /\ minimumLength (base o') = lo
              /\ maximumLength (base o') = hi
              /\ enabled (base o') = enabled (base o)
              /\ expectedCount (base o') = expectedCount (base o)
              /\ decoderType (base o') = decoderType (base o)
              /\ configTypeName (base o') = configTypeName (base o)
              /\ class o' = class o /\ members o' = members o).
  { intro H. unfold Object_SetLengthRange.
    rewrite (SetLengthRange_accepts (base o) H).
    eexists. split; [reflexivity |]. simpl. repeat split. }
  assert (Hrej : ~ valid_length_range lo hi ->
            exists what,
              Object_SetLengthRange o lo hi = (inr (invalid_argument what), o)).
  { intro H. unfold Object_SetLengthRange.
    destruct (SetLengthRange_rejects (base o) H) as [w Hw].
    rewrite Hw. exists w. destruct o; reflexivity. }
  split; [| split].
  - split.
    + intro H. destruct (Hacc H) as [o' [E _]]. eauto.
    + intros [r [o' E]].
      destruct ((lo >=? 0) && (hi >=? 0)
                && negb ((lo >? 0) && (hi >? 0) && (hi <? lo))) eqn:D.
      * apply valid_length_range_dec. exact D.
      * assert (N : ~ valid_length_range lo hi)
          by (rewrite valid_length_range_dec, D; discriminate).
        destruct (Hrej N) as [w Hw]. rewrite Hw in E. discriminate.
  - exact Hacc.
  - intro H. destruct (Hrej H) as [w Hw]. exists w.
    rewrite Hw. repeat split.
Qed.

(* ================================================================= *)
(** ** The two enumerations *)

Lemma DecoderType_all_complete (d : DecoderType.t) : In d DecoderType.all.
Proof. destruct d; simpl; tauto. Qed.

Lemma BarcodeType_all_complete (b : BarcodeType.t) : In b BarcodeType.all.
Proof. destruct b; simpl; tauto. Qed.

Lemma DecoderType_of_value_value (d : DecoderType.t) :
  DecoderType.of_value (DecoderType.value d) = Some d.
Proof. destruct d; reflexivity. Qed.

Lemma DecoderType_of_value_Some (z : Z) (d : DecoderType.t) :
  DecoderType.of_value z = Some d -> DecoderType.value d = z.
Proof.
  unfold DecoderType.of_value. intro H.
  apply find_some in H as [_ H]. apply Z.eqb_eq. exact H.
Qed.

Lemma DecoderType_value_range (d : DecoderType.t) : 0 <= DecoderType.value d <= 39.
Proof. destruct d; simpl; lia. Qed.

Lemma known_decoder_range (z : Z) : known_decoder z = true <-> 0 <= z <= 39.
Proof.
  unfold known_decoder. split.
  - destruct (DecoderType.of_value z) eqn:E; [| discriminate].
    intros _. apply DecoderType_of_value_Some in E. subst z.
    apply DecoderType_value_range.
  - intros [Hlo Hhi].
    assert (Hz : exists n, (n <= 39)%nat /\ z = Z.of_nat n).
    { exists (Z.to_nat z). split; lia. }
    destruct Hz as [n [Hn ->]].
    do 40 (destruct n as [| n]; [reflexivity |]). lia.
Qed.

Lemma no_decoder_named (b : BarcodeType.t) :
  decoderTypeOf b = None ->
  forall d, DecoderType.name d <> BarcodeType.name b.
Proof.
  unfold decoderTypeOf. intros H d E.
  pose proof (find_none _ _ H d (DecoderType_all_complete d)) as F.
  simpl in F. rewrite E, String.eqb_refl in F. discriminate.
Qed.

(** C7. Every [DecoderType] enumerator has a [BarcodeType] enumerator of
    the same identifier, and the [BarcodeType] enumerators with no
    [DecoderType] of their identifier are exactly [IDMRZ], [IDPicture]
    and [IDSignature]. *)
Theorem DecoderType_within_BarcodeType :
  (forall d : DecoderType.t,
     exists b : BarcodeType.t,
       barcodeTypeOf d = Some b /\ BarcodeType.name b = DecoderType.name d)
  /\ (forall b : BarcodeType.t,
        (forall d : DecoderType.t, DecoderType.name d <> BarcodeType.name b)
        <-> (b = BarcodeType.IDMRZ \/ b = BarcodeType.IDPicture
             \/ b = BarcodeType.IDSignature))
  /\ List.length BarcodeType.all = (List.length DecoderType.all + 3)%nat.
Proof.
  split; [| split].
  - intro d. destruct d; eexists; (split; [reflexivity | reflexivity]).
  - intro b. split.
    + intro H.
      destruct (decoderTypeOf b) as [d |] eqn:E.
      * exfalso. unfold decoderTypeOf in E.
        apply find_some in E as [_ E]. apply String.eqb_eq in E.
        exact (H d E).
      * destruct b; try discriminate E; tauto.
    + intros [-> | [-> | ->]]; apply no_decoder_named; reflexivity.
  - reflexivity.
Qed.

(* ================================================================= *)
(** ** Default-constructed configurations *)

(** C6. Whatever decoder type it is constructed for: an [MsiConfig] has
    [checksumType = Mod10]; a [CodabarConfig] has [minimumLength = 4];
    an object of any other class has its checksum selector, if it has
    one, at [Disabled] and both length bounds at zero. *)
Theorem default_configurations (d : DecoderType.t) :
  members (construct MsiConfig d) = MsiMembers MsiConfig.Mod10
  /\ minimumLength (base (construct CodabarConfig d)) = 4
  /\ (forall c : ConfigClass,
        c <> MsiConfig -> c <> CodabarConfig ->
        checksum_disabled (members (construct c d)) = true
        /\ minimumLength (base (construct c d)) = 0
        /\ maximumLength (base (construct c d)) = 0).
Proof.
  split; [reflexivity | split; [reflexivity |]].
  intros c Hm Hc.
  destruct c; try contradiction; repeat split.
Qed.

Lemma default_configurations_witness :
  QRConfig <> MsiConfig /\ QRConfig <> CodabarConfig
  /\ checksum_disabled (members (construct QRConfig DecoderType.QR)) = true
  /\ minimumLength (base (construct QRConfig DecoderType.QR)) = 0
  /\ maximumLength (base (construct QRConfig DecoderType.QR)) = 0.
Proof.
  split; [discriminate | split; [discriminate |]].
  apply (proj2 (proj2 (default_configurations DecoderType.QR)) QRConfig);
    discriminate.
Defined.

(* ================================================================= *)
(** ** Arithmetic of the 32-bit and 64-bit conversions *)

Lemma wrap32_range (z : Z) : INT_MIN <= wrap32 z <= INT_MAX.
Proof.
  unfold wrap32, INT_MIN, INT_MAX.
  pose proof (Z.mod_pos_bound (z + 2 ^ 31) (2 ^ 32) ltac:(lia)). lia.
Qed.

Lemma wrap32_small (z : Z) : INT_MIN <= z <= INT_MAX -> wrap32 z = z.
Proof.
  unfold wrap32, INT_MIN, INT_MAX. intro H.
  rewrite Z.mod_small by lia. lia.
Qed.

Lemma to_size_t_nonneg (i : Z) : 0 <= i < 2 ^ 64 -> to_size_t i = i.
Proof. intro H. unfold to_size_t. apply Z.mod_small. exact H. Qed.

Lemma to_size_t_negative (i : Z) :
  - 2 ^ 64 <= i < 0 -> to_size_t i = 2 ^ 64 + i.
Proof.
  intro H. unfold to_size_t.
  symmetry. apply Z.mod_unique with (q := -1); lia.
Qed.

Lemma Int32Value_of_int (z : Z) : Int32Value (of_int z) = wrap32 z.
Proof. unfold Int32Value, of_int. simpl. rewrite Z.quot_1_r. reflexivity. Qed.

Lemma Int32Value_range (d : double) : INT_MIN <= Int32Value d <= INT_MAX.
Proof.
  destruct d; simpl; try apply wrap32_range; unfold INT_MIN, INT_MAX; lia.
Qed.

(* ================================================================= *)
(** ** The response document *)

Lemma c_str_nul_free (s : string) : nul_free s = true -> c_str s = s.
Proof.
  induction s as [| c s IH]; simpl; [reflexivity |].
  intro H. apply andb_true_iff in H as [Hc Hs].
  apply negb_true_iff in Hc. rewrite Hc, IH by exact Hs. reflexivity.
Qed.

Lemma c_str_is_nul_free (s : string) : nul_free (c_str s) = true.
Proof.
  induction s as [| c s IH]; simpl; [reflexivity |].
  destruct (Ascii.eqb c Ascii.zero) eqn:E; simpl; [reflexivity |].
  rewrite E, IH. reflexivity.
Qed.

Lemma add_extra_loop (pairs : list (string * string)) (children : list (string * cJSON)) :
  fold_left
    (fun obj pair =>
       cJSON_AddStringToObject obj (c_str (fst pair)) (c_str (snd pair)))
    pairs (cJSON_Object children)
  = cJSON_Object (children ++ map promoted pairs).
Proof.
  revert children.
  induction pairs as [| p pairs IH]; intro children; simpl.
  - rewrite app_nil_r. reflexivity.
  - rewrite IH, <- app_assoc. reflexivity.
Qed.

Lemma singleResult_shape (r : BaseResult) :
  singleResult r =
    cJSON_Object
      (("barcodeTypeName", cJSON_String (c_str (barcodeTypeName r)))
       :: ("textualData", cJSON_String (c_str (textualData r)))
       :: map promoted (extra r)).
Proof.
  unfold singleResult, add_extra. simpl. rewrite add_extra_loop. reflexivity.
Qed.

Lemma results_loop (results : list BaseResult) (n : nat) (items : list cJSON) :
  (n <= List.length results)%nat ->
  fold_left
    (fun arr i => cJSON_AddItemToArray arr (singleResult (nth i results no_result)))
    (seq 0 n) (cJSON_Array items)
  = cJSON_Array (items ++ map singleResult (firstn n results)).
Proof.
  induction n as [| n IH]; intro Hn.
  - simpl. rewrite app_nil_r. reflexivity.
  - rewrite seq_S, fold_left_app, IH by lia. simpl.
    rewrite <- app_assoc. f_equal. f_equal.
    rewrite <- map_last. f_equal.
    clear IH. revert n Hn.
    induction results as [| r results IHr]; intros n Hn; simpl in Hn; [lia |].
    destruct n as [| n]; simpl.
    + reflexivity.
    + f_equal. apply IHr. lia.
Qed.

Lemma promoted_nul_free (pairs : list (string * string)) :
  forallb (fun pair => nul_free (fst pair) && nul_free (snd pair)) pairs = true ->
  map promoted pairs = map (fun pair => (fst pair, cJSON_String (snd pair))) pairs.
Proof.
  induction pairs as [| p pairs IH]; simpl; [reflexivity |].
  intro H. apply andb_true_iff in H as [Hp Hrest].
  apply andb_true_iff in Hp as [Hk Hv].
  unfold promoted at 1. rewrite !c_str_nul_free, IH by assumption.
  reflexivity.
Qed.

Lemma singleResult_nul_free (r : BaseResult) :
  nul_free_result r = true -> singleResult r = spec_subdocument r.
Proof.
  intro H. unfold nul_free_result in H.
  apply andb_true_iff in H as [H He].
  apply andb_true_iff in H as [Hn Ht].
  rewrite singleResult_shape. unfold spec_subdocument, spec_auxiliary.
  rewrite !c_str_nul_free, promoted_nul_free by assumption. reflexivity.
Qed.

(** The document as the code builds it, for a sequence whose length an
    [int] can hold: the three shapes, each string cut at its first NUL. *)
Lemma marshal_shape (results : list BaseResult) :
  Z.of_nat (List.length results) <= INT_MAX ->
  marshal results =
    match results with
    | [] =>
        cJSON_Object
          [ ("resultsCount", cJSON_Number 0);
            ("barcodeTypeName", cJSON_String "");
            ("textualData", cJSON_String "") ]
    | [r] =>
        cJSON_Object
          (("resultsCount", cJSON_Number 1)
           :: ("barcodeTypeName", cJSON_String (c_str (barcodeTypeName r)))
           :: ("textualData", cJSON_String (c_str (textualData r)))
           :: map promoted (extra r))
    | _ =>
        cJSON_Object
          [ ("resultsCount", cJSON_Number (Z.of_nat (List.length results)));
            ("results", cJSON_Array (map singleResult results)) ]
    end.
Proof.
  intro Hlen. unfold marshal.
  rewrite wrap32_small by (unfold INT_MIN, INT_MAX in *; lia).
  destruct results as [| r [| r' rest]].
  - reflexivity.
  - simpl. unfold add_extra. simpl. rewrite add_extra_loop. reflexivity.
  - set (l := r :: r' :: rest) in *.
    assert (H2 : (2 <= List.length l)%nat) by (subst l; simpl; lia).
    destruct (Z.of_nat (List.length l) =? 0) eqn:E0;
      [apply Z.eqb_eq in E0; lia |].
    destruct (Z.of_nat (List.length l) =? 1) eqn:E1;
      [apply Z.eqb_eq in E1; lia |].
    rewrite Nat2Z.id.
    unfold cJSON_CreateArray. rewrite results_loop by lia.
    rewrite firstn_all. reflexivity.
Qed.

(** C2, on the code. For a result sequence of length [N <= INT_MAX]
    whose strings hold no NUL character the response document is the one
    the spec describes: for [N = 0] the fields [resultsCount = 0],
    [barcodeTypeName = ""], [textualData = ""] and nothing else; for
    [N = 1] a flat document with [resultsCount = 1], the type name, the
    textual data and every auxiliary pair as top-level fields; for
    [N > 1] the fields [resultsCount = N] and [results], the latter an
    array with one sub-document per result, in sequence order, each
    holding its own type name, textual data and auxiliary pairs. *)
Theorem marshal_three_shapes (results : list BaseResult) :
  Z.of_nat (List.length results) <= INT_MAX ->
  forallb nul_free_result results = true ->
  marshal results = spec_document results.
Proof.
  intros Hlen Hnul. rewrite marshal_shape by exact Hlen.
  destruct results as [| r [| r' rest]].
  - reflexivity.
  - simpl in Hnul. rewrite andb_true_r in Hnul.
    pose proof (singleResult_nul_free r Hnul) as H.
    rewrite singleResult_shape in H. unfold spec_subdocument in H.
    injection H as Hn Ht He.
    unfold spec_document. rewrite Hn, Ht, He. reflexivity.
  - unfold spec_document. do 4 f_equal. f_equal.
    apply map_ext_in. intros x Hx.
    apply singleResult_nul_free.
    rewrite forallb_forall in Hnul. apply Hnul. exact Hx.
Qed.

Lemma marshal_three_shapes_witness :
  marshal
    [ {| barcodeTypeName := "QR"; textualData := "ABC"; extra := [("gs1", "01")] |} ]
  = cJSON_Object
      [ ("resultsCount", cJSON_Number 1);
        ("barcodeTypeName", cJSON_String "QR");
        ("textualData", cJSON_String "ABC");
        ("gs1", cJSON_String "01") ].
Proof.
  apply (marshal_three_shapes
           [ {| barcodeTypeName := "QR"; textualData := "ABC";
                extra := [("gs1", "01")] |} ]).
  - vm_compute. discriminate.
  - reflexivity.
Defined.

(** C2 as the spec words it fails on a payload with an embedded NUL: the
    document carries the payload only up to the NUL. *)
Lemma marshal_cuts_at_NUL :
  marshal [result_with_NUL] <> spec_document [result_with_NUL]
  /\ marshal [result_with_NUL] =
       cJSON_Object
         [ ("resultsCount", cJSON_Number 1);
           ("barcodeTypeName", cJSON_String "QR");
           ("textualData", cJSON_String "A") ].
Proof.
  split; [| reflexivity].
  vm_compute. discriminate.
Qed.

(** The length of the sequence reaches the branches as an [int]: a
    sequence of [2^32] results would be rendered as the empty shape. *)
Lemma marshal_counts_in_int (r : BaseResult) :
  marshal (repeat r (Z.to_nat (2 ^ 32))) =
    cJSON_Object
      [ ("resultsCount", cJSON_Number 0);
        ("barcodeTypeName", cJSON_String "");
        ("textualData", cJSON_String "") ].
Proof.
  unfold marshal. rewrite repeat_length, Z2Nat.id by lia.
  change (wrap32 (2 ^ 32)) with 0. reflexivity.
Qed.

(* ================================================================= *)
(** ** The binding *)

Section Binding.

Variable float : Type.
Variable sdk : SDK float.

Lemma error_not_succeeded (message : string) :
  ~ succeeded (RString ("ERROR: " ++ message)).
Proof. intros [m H]. simpl in H. discriminate H. Qed.

Lemma type_error_not_succeeded (message : string) :
  ~ succeeded (RTypeError message).
Proof. intros [m H]. discriminate H. Qed.

Lemma exception_not_succeeded (e : exception) :
  ~ succeeded (initialization_exception e).
Proof. apply error_not_succeeded. Qed.

(** What [Initialize] does: it reports success with everything set; or
    the engine gave no registry and nothing but the record of calls
    changed; or the engine gave a registry, which is in place, and an
    exception of [Config::SetGlobalOption] ended the call before the
    speed and the cap were written. *)
Lemma Initialize_cases (info : list Value) (st : State float) :
  (succeeded (fst (Initialize sdk info st))
   /\ exists c,
        config (snd (Initialize sdk info st)) = Some c
        /\ decodingSpeed c = DecodingSpeed_value Normal
        /\ maximumResultsCount c = 1
        /\ maximumThreads (snd (Initialize sdk info st)) = Some 1
        /\ useGPU (snd (Initialize sdk info st)) = Some 0)
  \/ (~ succeeded (fst (Initialize sdk info st))
      /\ ((licence_accepted sdk info st = false
           /\ config (snd (Initialize sdk info st)) = config st
           /\ maximumThreads (snd (Initialize sdk info st)) = maximumThreads st
           /\ useGPU (snd (Initialize sdk info st)) = useGPU st)
          \/ (licence_accepted sdk info st = true
              /\ config (snd (Initialize sdk info st)) <> None
              /\ (maximumThreads (snd (Initialize sdk info st)) = maximumThreads st
                  \/ maximumThreads (snd (Initialize sdk info st)) = Some 1)
              /\ useGPU (snd (Initialize sdk info st)) = useGPU st))).
Proof.
  unfold Initialize, licence_accepted.
  destruct info as [| [| | b | d | licenseKey | elements | data |] rest];
    try (right; simpl; split; [apply type_error_not_succeeded | left; tauto]).
  destruct (InitializeWithLicenseKey sdk (calls st) licenseKey) as [response | e].
  - destruct (GetResult response).
    + unfold SetGlobalOption. cbn [calls set_config record_call].
      destruct (SetGlobalOption_throws sdk _ BKGlobalOption_SetMaximumThreads 1)
        as [e1 |].
      * right. split; [apply exception_not_succeeded |].
        right. simpl. repeat split; [discriminate | left; reflexivity].
      * cbn [calls].
        destruct (SetGlobalOption_throws sdk _ BKGlobalOption_UseGPU 0) as [e2 |].
        -- right. split; [apply exception_not_succeeded |].
           right. simpl. repeat split; [discriminate | right; reflexivity].
        -- left. simpl. split.
           ++ exists (Message response). reflexivity.
           ++ eexists. repeat split.
    + right. simpl. split; [apply error_not_succeeded | left; tauto].
  - right. simpl. split; [apply exception_not_succeeded | left; tauto].
Qed.

Lemma succeeded_licence_accepted (info : list Value) (st : State float) :
  succeeded (fst (Initialize sdk info st)) ->
  licence_accepted sdk info st = true.
Proof.
  unfold Initialize, licence_accepted.
  destruct info as [| [| | b | d | licenseKey | elements | data |] rest];
    try (intro S; exfalso; exact (type_error_not_succeeded S)).
  destruct (InitializeWithLicenseKey sdk (calls st) licenseKey) as [response | e].
  - destruct (GetResult response); [reflexivity |].
    intro S. exfalso. exact (error_not_succeeded S).
  - intro S. exfalso. exact (exception_not_succeeded S).
Qed.

(** C9. When [initialize] reports success, the registry in place after
    the call has decoding speed [Normal] and a results cap of 1, and the
    process options are one thread and no hardware acceleration, whatever
    the state held before the call. *)
Theorem Initialize_resets_settings (info : list Value) (st : State float) :
  succeeded (fst (Initialize sdk info st)) ->
  exists c,
    config (snd (Initialize sdk info st)) = Some c
    /\ DecodingSpeed_of_value (decodingSpeed c) = Some Normal
    /\ maximumResultsCount c = 1
    /\ maximumThreads (snd (Initialize sdk info st)) = Some 1
    /\ useGPU (snd (Initialize sdk info st)) = Some 0.
Proof.
  intro H.
  destruct (Initialize_cases info st) as [[_ [c [Hc [Hs [Hm [Ht Hg]]]]]] | [N _]].
  - exists c. rewrite Hs. repeat split; assumption.
  - contradiction.
Qed.

(** A function that needs the registry answers [NOT_INITIALIZED] and
    changes nothing while the pointer is null. *)
Lemma needs_config_guard (f : Export) (info : list Value) (st : State float) :
  needs_config f = true ->
  config st = None ->
  call sdk f info st = (RString NOT_INITIALIZED, st).
Proof.
  intros Hf Hc.
  destruct f; try discriminate Hf; simpl;
    [ unfold SetEnabledDecoders | unfold SetDecodingSpeed
    | unfold SetRegionOfInterest | unfold DecodeImage ];
    rewrite Hc; reflexivity.
Qed.

(** Only an [initialize] that gets a registry from the engine sets the
    pointer. *)
Lemma call_keeps_null (f : Export) (info : list Value) (st : State float) :
  config st = None ->
  (f = initialize /\ licence_accepted sdk info st = true)
  \/ config (snd (call sdk f info st)) = None.
Proof.
  intro Hc.
  destruct f.
  - right. simpl. unfold GetVersion.
    destruct (GetLibVersion sdk (calls st)); simpl; exact Hc.
  - simpl.
    destruct (Initialize_cases info st)
      as [[S _] | [_ [[_ [E _]] | [A _]]]].
    + left. split; [reflexivity | apply succeeded_licence_accepted; exact S].
    + right. rewrite E. exact Hc.
    + left. split; [reflexivity | exact A].
  - right. simpl. exact Hc.
  - right. rewrite needs_config_guard by (reflexivity || exact Hc). exact Hc.
  - right. rewrite needs_config_guard by (reflexivity || exact Hc). exact Hc.
  - right. rewrite needs_config_guard by (reflexivity || exact Hc). exact Hc.
  - right. rewrite needs_config_guard by (reflexivity || exact Hc). exact Hc.
Qed.

Lemma run_keeps_null (program : list (Export * list Value)) (st : State float) :
  config st = None ->
  some_licence_accepted sdk program st = false ->
  config (snd (run sdk program st)) = None.
Proof.
  revert st.
  induction program as [| [f info] program IH]; intros st Hc Hacc.
  - exact Hc.
  - cbn [some_licence_accepted] in Hacc.
    apply orb_false_iff in Hacc as [Hhead Htail].
    simpl.
    destruct (call sdk f info st) as [r st1] eqn:Ecall.
    destruct (run sdk program st1) as [log st2] eqn:Erun.
    cbn [snd] in *.
    assert (H1 : config st1 = None).
    { destruct (call_keeps_null f info st Hc) as [[-> A] | H].
      - rewrite A in Hhead. discriminate Hhead.
      - rewrite Ecall in H. exact H. }
    specialize (IH st1 H1 Htail). rewrite Erun in IH. exact IH.
Qed.

(** After any sequence of calls from process start in which no
    [initialize] got a registry from the engine (each failed on its
    argument, on a rejected key or on an exception of the licence call),
    each of [setEnabledDecoders], [setDecodingSpeed],
    [setRegionOfInterest] and [decodeImage], on any arguments, returns
    the not-initialised error and leaves the state, the record of engine
    calls included, as it was. *)
Theorem not_initialized_until_licence_accepted
    (program : list (Export * list Value)) (f : Export) (info : list Value) :
  some_licence_accepted sdk program (initial_state float) = false ->
  needs_config f = true ->
  call sdk f info (snd (run sdk program (initial_state float)))
  = (RString NOT_INITIALIZED, snd (run sdk program (initial_state float))).
Proof.
  intros Hacc Hf.
  apply needs_config_guard; [exact Hf |].
  apply run_keeps_null; [reflexivity | exact Hacc].
Qed.

(** C8, on the code. On an initialised registry and for every integer
    argument [z], [setDecodingSpeed] stores the 32-bit value of [z] as
    the decoding speed and reports success, with no check of the range:
    for [z] among 0, 1, 2, 3 the stored value is the speed of that
    number (0 = Fast, 1 = Normal, 2 = Slow, 3 = Rigorous), and for any
    other [z] the 32-bit value of [z] is stored all the same. *)
Theorem SetDecodingSpeed_stores
    (st : State float) (c : Config float) (z : Z) (rest : list Value) :
  config st = Some c ->
  SetDecodingSpeed (VNumber (of_int z) :: rest) st
  = (RString ("SUCCESS: Decoding speed set to " ++ to_string (wrap32 z)),
     set_config st (set_decodingSpeed c (wrap32 z)))
  /\ decodingSpeed (set_decodingSpeed c (wrap32 z)) = wrap32 z
  /\ (forall s : DecodingSpeed,
        z = DecodingSpeed_value s ->
        DecodingSpeed_of_value (decodingSpeed (set_decodingSpeed c (wrap32 z)))
        = Some s)
  /\ (0 <= z <= 3 ->
        exists s, DecodingSpeed_of_value z = Some s /\ DecodingSpeed_value s = z).
Proof.
  intro Hc. split; [| split; [| split]].
  - unfold SetDecodingSpeed. rewrite Hc, Int32Value_of_int. reflexivity.
  - reflexivity.
  - intros s ->. destruct s; reflexivity.
  - intro H.
    assert (z = 0 \/ z = 1 \/ z = 2 \/ z = 3) as [-> | [-> | [-> | ->]]] by lia;
      eexists; split; reflexivity.
Qed.

(** The decoders the loop collects: the 32-bit values of the numbers of
    the array, in order. *)
Lemma collect_decoders_spec (decodersArray : list Value) :
  collect_decoders decodersArray =
    flat_map (fun element =>
                match element with
                | VNumber n => [Int32Value n]
                | _ => []
                end) decodersArray.
Proof.
  unfold collect_decoders.
  enough (G : forall acc,
            fold_left
              (fun enabledDecoders element =>
                 match element with
                 | VNumber n => (enabledDecoders ++ [Int32Value n])%list
                 | _ => enabledDecoders
                 end) decodersArray acc
            = (acc ++ flat_map (fun element =>
                                  match element with
                                  | VNumber n => [Int32Value n]
                                  | _ => []
                                  end) decodersArray)%list)
    by (rewrite G; reflexivity).
  induction decodersArray as [| element rest IH]; intro acc; simpl.
  - rewrite app_nil_r. reflexivity.
  - rewrite IH. destruct element; simpl; try reflexivity.
    rewrite <- app_assoc. reflexivity.
Qed.

Lemma In_collect_decoders (decodersArray : list Value) (z : Z) :
  In z (collect_decoders decodersArray) <->
  exists n, In (VNumber n) decodersArray /\ Int32Value n = z.
Proof.
  rewrite collect_decoders_spec, in_flat_map. split.
  - intros [element [Hin Hz]].
    destruct element; simpl in Hz; try contradiction.
    destruct Hz as [<- | []]. eauto.
  - intros [n [Hin <-]]. exists (VNumber n). split; [exact Hin | left; reflexivity].
Qed.

(** C5, on the code. On an initialised registry, with an array as first
    argument: the decoder codes are the 32-bit values of the numbers of
    the array, the other elements being passed over.  If one of these
    codes is not the value of a [DecoderType] (it lies outside 0..39) the
    call returns an error and the state is unchanged; otherwise it
    reports success, every [DecoderType] whose value is among the codes
    ends enabled, every other one ends disabled, whatever was enabled
    before, and nothing else of the registry changes. *)
Theorem SetEnabledDecoders_replaces
    (st : State float) (c : Config float)
    (decodersArray : list Value) (rest : list Value) :
  config st = Some c ->
  ((exists z, In z (collect_decoders decodersArray) /\ ~ 0 <= z <= 39) ->
     SetEnabledDecoders sdk (VArray decodersArray :: rest) st
     = (RString ("ERROR: " ++ unknown_decoder_what sdk), st))
  /\ ((forall z, In z (collect_decoders decodersArray) -> 0 <= z <= 39) ->
        exists c',
          SetEnabledDecoders sdk (VArray decodersArray :: rest) st
          = (RString ("SUCCESS: Enabled "
                      ++ (to_string (Z.of_nat (List.length (collect_decoders decodersArray)))
                      ++ " decoders")),
             set_config st c')
          /\ (forall d : DecoderType.t,
                is_enabled c' d = true
                <-> In (DecoderType.value d) (collect_decoders decodersArray))
          /\ decodingSpeed c' = decodingSpeed c
          /\ maximumResultsCount c' = maximumResultsCount c
          /\ regionOfInterest c' = regionOfInterest c).
Proof.
  intro Hc. unfold SetEnabledDecoders. rewrite Hc.
  unfold Config_SetEnabledDecoders. split.
  - intros [z [Hin Hz]].
    assert (E : forallb known_decoder (collect_decoders decodersArray) = false).
    { apply not_true_is_false. intro A.
      rewrite forallb_forall in A. specialize (A z Hin).
      apply known_decoder_range in A. contradiction. }
    rewrite E. reflexivity.
  - intro Hall.
    assert (E : forallb known_decoder (collect_decoders decodersArray) = true).
    { apply forallb_forall. intros z Hin.
      apply known_decoder_range. apply Hall. exact Hin. }
    rewrite E. eexists. split; [reflexivity |].
    split; [| repeat split].
    intro d. unfold is_enabled. simpl.
    rewrite existsb_exists. split.
    + intros [z [Hin Hz]]. apply Z.eqb_eq in Hz. rewrite Hz. exact Hin.
    + intro Hin. exists (DecoderType.value d).
      split; [exact Hin | apply Z.eqb_refl].
Qed.

(** What [DecodeImage] does once the registry and the arguments are in
    place, by the outcome of the guard. *)
Lemma DecodeImage_rejects
    (st : State float) (c : Config float) (imageData : list Byte.byte)
    (a1 a2 : double) (rest : list Value) :
  config st = Some c ->
  buffer_too_small (Z.of_nat (List.length imageData)) (Int32Value a1) (Int32Value a2) = true ->
  DecodeImage sdk (VBuffer imageData :: VNumber a1 :: VNumber a2 :: rest) st
  = (RString BUFFER_TOO_SMALL, st).
Proof. intros Hc Hg. unfold DecodeImage. rewrite Hc, Hg. reflexivity. Qed.

Lemma DecodeImage_proceeds
    (st : State float) (c : Config float) (imageData : list Byte.byte)
    (a1 a2 : double) (rest : list Value) :
  config st = Some c ->
  buffer_too_small (Z.of_nat (List.length imageData)) (Int32Value a1) (Int32Value a2) = false ->
  DecodeImage sdk (VBuffer imageData :: VNumber a1 :: VNumber a2 :: rest) st
  = (match DecodeImageMemory sdk (calls st) c imageData (Int32Value a1) (Int32Value a2) with
     | inl results => RString (cJSON_Print sdk (marshal results))
     | inr e => RString ("ERROR: " ++ what_of e)
     end,
     set_config
       (record_call st
          (DecodeImageMemory_call c imageData (Int32Value a1) (Int32Value a2)))
       (DecodeImageMemory_leaves sdk (calls st) c imageData
          (Int32Value a1) (Int32Value a2))).
Proof.
  intros Hc Hg. unfold DecodeImage. rewrite Hc, Hg.
  destruct (DecodeImageMemory sdk (calls st) c imageData (Int32Value a1) (Int32Value a2));
    reflexivity.
Qed.

(** C3, on the code. On an initialised registry, for a width and a
    height whose product lies in [0 .. INT_MAX]: a buffer shorter than
    the product is refused with the buffer-too-small error, the state
    and the record of engine calls unchanged; a buffer of the product's
    length or longer goes to the engine, whole, with the width and the
    height as given, the reply is what the engine's answer renders to,
    and the state is the one before with the call recorded and the
    registry as the engine left it. *)
Theorem DecodeImage_checks_buffer
    (st : State float) (c : Config float) (imageData : list Byte.byte)
    (a1 a2 : double) (rest : list Value) :
  config st = Some c ->
  0 <= Int32Value a1 * Int32Value a2 <= INT_MAX ->
  (Z.of_nat (List.length imageData) < Int32Value a1 * Int32Value a2 ->
     DecodeImage sdk (VBuffer imageData :: VNumber a1 :: VNumber a2 :: rest) st
     = (RString BUFFER_TOO_SMALL, st))
  /\ (Int32Value a1 * Int32Value a2 <= Z.of_nat (List.length imageData) ->
        DecodeImage sdk (VBuffer imageData :: VNumber a1 :: VNumber a2 :: rest) st
        = (match DecodeImageMemory sdk (calls st) c imageData
                   (Int32Value a1) (Int32Value a2) with
           | inl results => RString (cJSON_Print sdk (marshal results))
           | inr e => RString ("ERROR: " ++ what_of e)
           end,
           set_config
             (record_call st
                (DecodeImageMemory_call c imageData (Int32Value a1) (Int32Value a2)))
             (DecodeImageMemory_leaves sdk (calls st) c imageData
                (Int32Value a1) (Int32Value a2)))).
Proof.
  intros Hc Hp.
  assert (E : to_size_t (wrap32 (Int32Value a1 * Int32Value a2))
              = Int32Value a1 * Int32Value a2).
  { rewrite wrap32_small by (unfold INT_MIN, INT_MAX in *; lia).
    apply to_size_t_nonneg. unfold INT_MAX in Hp. lia. }
  split; intro H.
  - apply DecodeImage_rejects with (c := c); [exact Hc |].
    unfold buffer_too_small. rewrite E. apply Z.ltb_lt. exact H.
  - apply DecodeImage_proceeds; [exact Hc |].
    unfold buffer_too_small. rewrite E. apply Z.ltb_ge. exact H.
Qed.

(** C10, on the code. The guard compares the buffer length with the
    product of width and height taken as a 32-bit [int] and converted to
    [size_t]: the call is refused when the length is below that value and
    goes to the engine otherwise.  A negative 32-bit product converts to
    [2^64] plus the product, at least [2^64 - 2^31], so the call is
    refused for every buffer shorter than that and the engine is not
    called; this is the case when one of width and height is negative,
    the other positive, and their product is not below [INT_MIN].  A
    product above [INT_MAX] is not the value compared. *)
Theorem DecodeImage_guard_arithmetic
    (st : State float) (c : Config float) (imageData : list Byte.byte)
    (a1 a2 : double) (rest : list Value) :
  config st = Some c ->
  (Z.of_nat (List.length imageData)
     < to_size_t (wrap32 (Int32Value a1 * Int32Value a2)) ->
   DecodeImage sdk (VBuffer imageData :: VNumber a1 :: VNumber a2 :: rest) st
   = (RString BUFFER_TOO_SMALL, st))
  /\ (to_size_t (wrap32 (Int32Value a1 * Int32Value a2))
        <= Z.of_nat (List.length imageData) ->
      snd (DecodeImage sdk (VBuffer imageData :: VNumber a1 :: VNumber a2 :: rest) st)
      = set_config
          (record_call st
             (DecodeImageMemory_call c imageData (Int32Value a1) (Int32Value a2)))
          (DecodeImageMemory_leaves sdk (calls st) c imageData
             (Int32Value a1) (Int32Value a2)))
  /\ (wrap32 (Int32Value a1 * Int32Value a2) < 0 ->
      to_size_t (wrap32 (Int32Value a1 * Int32Value a2))
        = 2 ^ 64 + wrap32 (Int32Value a1 * Int32Value a2)
      /\ 2 ^ 64 - 2 ^ 31 <= to_size_t (wrap32 (Int32Value a1 * Int32Value a2))
      /\ (Z.of_nat (List.length imageData) < 2 ^ 64 - 2 ^ 31 ->
          DecodeImage sdk (VBuffer imageData :: VNumber a1 :: VNumber a2 :: rest) st
          = (RString BUFFER_TOO_SMALL, st)))
  /\ ((Int32Value a1 < 0 /\ 0 < Int32Value a2)
       \/ (0 < Int32Value a1 /\ Int32Value a2 < 0) ->
      INT_MIN <= Int32Value a1 * Int32Value a2 ->
      wrap32 (Int32Value a1 * Int32Value a2) = Int32Value a1 * Int32Value a2
      /\ wrap32 (Int32Value a1 * Int32Value a2) < 0)
  /\ (INT_MAX < Int32Value a1 * Int32Value a2 ->
      wrap32 (Int32Value a1 * Int32Value a2) <> Int32Value a1 * Int32Value a2).
Proof.
  intro Hc.
  set (w := Int32Value a1). set (h := Int32Value a2).
  pose proof (wrap32_range (w * h)) as R. unfold INT_MIN, INT_MAX in R.
  assert (Hrej : Z.of_nat (List.length imageData) < to_size_t (wrap32 (w * h)) ->
            DecodeImage sdk (VBuffer imageData :: VNumber a1 :: VNumber a2 :: rest) st
            = (RString BUFFER_TOO_SMALL, st)).
  { intro H. apply DecodeImage_rejects with (c := c); [exact Hc |].
    unfold buffer_too_small. apply Z.ltb_lt. exact H. }
  split; [exact Hrej | split; [| split; [| split]]].
  - intro H. rewrite DecodeImage_proceeds with (c := c); [reflexivity | exact Hc |].
    unfold buffer_too_small. apply Z.ltb_ge. exact H.
  - intro Hneg.
    assert (E : to_size_t (wrap32 (w * h)) = 2 ^ 64 + wrap32 (w * h))
      by (apply to_size_t_negative; lia).
    split; [exact E | split; [rewrite E; lia |]].
    intro Hlen. apply Hrej. rewrite E. lia.
  - intros Hsign Hlow.
    assert (Hp : w * h < 0) by nia.
    rewrite wrap32_small by (unfold INT_MIN, INT_MAX in *; lia).
    split; [reflexivity | exact Hp].
  - unfold INT_MAX. intros Hbig E. lia.
Qed.

End Binding.

(* ================================================================= *)
(** ** The properties at work on the stand-in engine *)

Lemma sample_state_config : config sample_state = Some sample_registry.
Proof. reflexivity. Qed.

Lemma Initialize_resets_settings_witness :
  succeeded
    (fst (Initialize sample_sdk [VString "LICENSE"]
            (snd (SetDecodingSpeed [VNumber (of_int 3)] sample_state))))
  /\ exists c,
       config
         (snd (Initialize sample_sdk [VString "LICENSE"]
                 (snd (SetDecodingSpeed [VNumber (of_int 3)] sample_state))))
       = Some c
       /\ DecodingSpeed_of_value (decodingSpeed c) = Some Normal
       /\ maximumResultsCount c = 1
       /\ maximumThreads
            (snd (Initialize sample_sdk [VString "LICENSE"]
                    (snd (SetDecodingSpeed [VNumber (of_int 3)] sample_state))))
          = Some 1
       /\ useGPU
            (snd (Initialize sample_sdk [VString "LICENSE"]
                    (snd (SetDecodingSpeed [VNumber (of_int 3)] sample_state))))
          = Some 0.
Proof.
  assert (S : succeeded
                (fst (Initialize sample_sdk [VString "LICENSE"]
                        (snd (SetDecodingSpeed [VNumber (of_int 3)] sample_state)))))
    by (exists "License valid"; reflexivity).
  split; [exact S |].
  exact (Initialize_resets_settings sample_sdk [VString "LICENSE"]
           (snd (SetDecodingSpeed [VNumber (of_int 3)] sample_state)) S).
Defined.

Lemma not_initialized_until_licence_accepted_witness :
  some_licence_accepted sample_sdk unlicensed_program (initial_state double) = false
  /\ call sample_sdk decodeImage
       [VBuffer [Byte.x00]; VNumber (of_int 1); VNumber (of_int 1)]
       (snd (run sample_sdk unlicensed_program (initial_state double)))
     = (RString NOT_INITIALIZED,
        snd (run sample_sdk unlicensed_program (initial_state double))).
Proof.
  split; [reflexivity |].
  apply (not_initialized_until_licence_accepted sample_sdk unlicensed_program
           decodeImage).
  - reflexivity.
  - reflexivity.
Defined.

Lemma SetDecodingSpeed_stores_witness :
  config sample_state = Some sample_registry
  /\ SetDecodingSpeed [VNumber (of_int 2)] sample_state
     = (RString "SUCCESS: Decoding speed set to 2",
        set_config sample_state (set_decodingSpeed sample_registry 2)).
Proof.
  split; [reflexivity |].
  exact (proj1 (SetDecodingSpeed_stores sample_state 2 [] sample_state_config)).
Defined.

Lemma SetEnabledDecoders_replaces_witness :
  config sample_state = Some sample_registry
  /\ exists c',
       SetEnabledDecoders sample_sdk
         [VArray [VNumber (of_int 2); VNumber (of_int 4)]] sample_state
       = (RString "SUCCESS: Enabled 2 decoders", set_config sample_state c')
       /\ (forall d : DecoderType.t,
             is_enabled c' d = true
             <-> In (DecoderType.value d) [2; 4])
       /\ decodingSpeed c' = decodingSpeed sample_registry
       /\ maximumResultsCount c' = maximumResultsCount sample_registry
       /\ regionOfInterest c' = regionOfInterest sample_registry.
Proof.
  split; [reflexivity |].
  apply (proj2 (SetEnabledDecoders_replaces sample_sdk sample_state
                  [VNumber (of_int 2); VNumber (of_int 4)] [] sample_state_config)).
  intros z Hin. vm_compute in Hin. destruct Hin as [<- | [<- | []]]; lia.
Defined.

Lemma DecodeImage_checks_buffer_witness :
  config sample_state = Some sample_registry
  /\ DecodeImage sample_sdk
       [VBuffer [Byte.x00; Byte.x01; Byte.x02; Byte.x03; Byte.x04];
        VNumber (of_int 2); VNumber (of_int 2)] sample_state
     = (RString "{resultsCount:0;barcodeTypeName:'';textualData:'';}",
        record_call sample_state
          (DecodeImageMemory_call sample_registry
             [Byte.x00; Byte.x01; Byte.x02; Byte.x03; Byte.x04] 2 2)).
Proof.
  split; [reflexivity |].
  apply (proj2 (DecodeImage_checks_buffer sample_sdk sample_state
                  [Byte.x00; Byte.x01; Byte.x02; Byte.x03; Byte.x04]
                  (of_int 2) (of_int 2) [] sample_state_config
                  ltac:(vm_compute; split; discriminate))).
  vm_compute. discriminate.
Defined.

Lemma DecodeImage_guard_arithmetic_witness :
  config sample_state = Some sample_registry
  /\ DecodeImage sample_sdk
       [VBuffer [Byte.x00]; VNumber (of_int (-2)); VNumber (of_int 3)] sample_state
     = (RString BUFFER_TOO_SMALL, sample_state).
Proof.
  split; [reflexivity |].
  apply (proj1 (DecodeImage_guard_arithmetic sample_sdk sample_state
                  [Byte.x00] (of_int (-2)) (of_int 3) [] sample_state_config)).
  vm_compute. reflexivity.
Defined.

(* ================================================================= *)
(** ** Where the code departs from the wording of the spec *)

(** C4 fails on the code when [Config::SetGlobalOption] throws: the
    pointer was assigned before the call, so [initialize] answers with an
    error and leaves a registry in place, and the next
    [setDecodingSpeed] is carried out instead of being refused as not
    initialised. *)
Lemma Initialize_error_leaves_registry :
  fst (Initialize faulty_sdk [VString "LICENSE"] (initial_state double))
    = RString "ERROR: Exception during initialization: GPU option refused"
  /\ ~ succeeded
        (fst (Initialize faulty_sdk [VString "LICENSE"] (initial_state double)))
  /\ config (snd (Initialize faulty_sdk [VString "LICENSE"] (initial_state double)))
     = Some sample_config
  /\ useGPU (snd (Initialize faulty_sdk [VString "LICENSE"] (initial_state double)))
     = None
  /\ fst (IsInitialized []
            (snd (Initialize faulty_sdk [VString "LICENSE"] (initial_state double))))
     = RBoolean true
  /\ fst (SetDecodingSpeed [VNumber (of_int 2)]
            (snd (Initialize faulty_sdk [VString "LICENSE"] (initial_state double))))
     = RString "SUCCESS: Decoding speed set to 2"
  /\ fst (SetDecodingSpeed [VNumber (of_int 2)]
            (snd (Initialize faulty_sdk [VString "LICENSE"] (initial_state double))))
     <> RString NOT_INITIALIZED.
Proof.
  split; [reflexivity |].
  split; [intros [message H]; discriminate H |].
  split; [reflexivity |].
  split; [reflexivity |].
  split; [reflexivity |].
  split; [reflexivity | discriminate].
Qed.

(** C3 as worded fails for a negative product: a buffer of five bytes is
    at least [-1 * 1] long and is refused all the same. *)
Lemma DecodeImage_refuses_negative_product :
  Int32Value (of_int (-1)) * Int32Value (of_int 1)
    <= Z.of_nat (List.length [Byte.x00; Byte.x00; Byte.x00; Byte.x00; Byte.x00])
  /\ DecodeImage sample_sdk
       [VBuffer [Byte.x00; Byte.x00; Byte.x00; Byte.x00; Byte.x00];
        VNumber (of_int (-1)); VNumber (of_int 1)] sample_state
     = (RString BUFFER_TOO_SMALL, sample_state).
Proof. split; [vm_compute; discriminate | reflexivity]. Qed.

(** It fails as well for a product above [INT_MAX]: an empty buffer is
    shorter than [65536 * 65536] and goes to the engine. *)
Lemma DecodeImage_passes_overflowing_product :
  Z.of_nat (List.length (@nil Byte.byte))
    < Int32Value (of_int 65536) * Int32Value (of_int 65536)
  /\ snd (DecodeImage sample_sdk
            [VBuffer []; VNumber (of_int 65536); VNumber (of_int 65536)]
            sample_state)
     = record_call sample_state
         (DecodeImageMemory_call sample_registry [] 65536 65536).
Proof. split; [vm_compute; reflexivity | reflexivity]. Qed.

(** C5 as worded fails on a code beyond 32 bits: [4294967296] names no
    decoder, and the call enables [Aztec] and reports success. *)
Lemma SetEnabledDecoders_accepts_wrapped_code :
  DecoderType.of_value 4294967296 = None
  /\ fst (SetEnabledDecoders sample_sdk
            [VArray [VNumber (of_int 4294967296)]] sample_state)
     = RString "SUCCESS: Enabled 1 decoders"
  /\ exists c',
       config (snd (SetEnabledDecoders sample_sdk
                      [VArray [VNumber (of_int 4294967296)]] sample_state))
       = Some c'
       /\ is_enabled c' DecoderType.Aztec = true.
Proof.
  split; [reflexivity | split; [reflexivity |]].
  eexists. split; reflexivity.
Qed.

(** An element that is not a number is passed over, not refused. *)
Lemma SetEnabledDecoders_skips_non_number :
  fst (SetEnabledDecoders sample_sdk
         [VArray [VNumber (of_int 2); VString "bogus"]] sample_state)
  = RString "SUCCESS: Enabled 1 decoders".
Proof. reflexivity. Qed.

(** C8 as worded fails outside 0..3: the argument 7 is stored and
    reported as set, though it is no speed, and the argument
    [4294967297] is stored as [Normal]. *)
Lemma SetDecodingSpeed_stores_out_of_range :
  SetDecodingSpeed [VNumber (of_int 7)] sample_state
    = (RString "SUCCESS: Decoding speed set to 7",
       set_config sample_state (set_decodingSpeed sample_registry 7))
  /\ DecodingSpeed_of_value 7 = None
  /\ SetDecodingSpeed [VNumber (of_int 4294967297)] sample_state
    = (RString "SUCCESS: Decoding speed set to 1",
       set_config sample_state
         (set_decodingSpeed sample_registry (DecodingSpeed_value Normal))).
Proof. repeat split. Qed.

(** C10 as worded fails when the other dimension is zero: the width
    [-1] with the height [0] gives the product [0], and the call goes to
    the engine with the negative width. *)
Lemma DecodeImage_passes_negative_width :
  Int32Value (of_int (-1)) < 0
  /\ ~ Int32Value (of_int 0) < 0
  /\ snd (DecodeImage sample_sdk
            [VBuffer []; VNumber (of_int (-1)); VNumber (of_int 0)] sample_state)
     = record_call sample_state
         (DecodeImageMemory_call sample_registry [] (-1) 0)
  /\ fst (DecodeImage sample_sdk
            [VBuffer []; VNumber (of_int (-1)); VNumber (of_int 0)] sample_state)
     <> RString BUFFER_TOO_SMALL.
Proof.
  split; [vm_compute; reflexivity |].
  split; [vm_compute; discriminate |].
  split; [reflexivity |].
  vm_compute. discriminate.
Qed.

(* ================================================================= *)
(** * Further properties of the code *)

(* ================================================================= *)
(** ** Sequences of [SetLengthRange] calls *)

Lemma length_range_accepted_valid (lo hi : Z) :
  length_range_accepted (lo, hi) = true <-> valid_length_range lo hi.
Proof. symmetry. apply valid_length_range_dec. Qed.

Lemma SetLengthRange_step (this : SpecificConfig) (lo hi : Z) :
  snd (SetLengthRange this lo hi) =
    if length_range_accepted (lo, hi) then
      {| enabled := enabled this;
         expectedCount := expectedCount this;
         minimumLength := lo;
         maximumLength := hi;
         decoderType := decoderType this;
         configTypeName := configTypeName this |}
    else this.
Proof.
  unfold SetLengthRange, length_range_accepted.
  destruct ((lo >=? 0) && (hi >=? 0)); simpl; [| reflexivity].
  destruct ((lo >? 0) && (hi >? 0) && (hi <? lo)); reflexivity.
Qed.

Lemma SetLengthRange_all_snoc
    (this : SpecificConfig) (ranges : list (Z * Z)) (range : Z * Z) :
  SetLengthRange_all this (ranges ++ [range]) =
    snd (SetLengthRange (SetLengthRange_all this ranges) (fst range) (snd range)).
Proof. unfold SetLengthRange_all. rewrite fold_left_app. reflexivity. Qed.

(** After any sequence of [SetLengthRange] calls the stored bounds are
    those of the last call that was accepted, or the initial ones when
    none was; the calls that threw in between left no trace, and no
    other member changed. *)
Theorem SetLengthRange_last_accepted
    (this : SpecificConfig) (ranges : list (Z * Z)) :
  (minimumLength (SetLengthRange_all this ranges),
   maximumLength (SetLengthRange_all this ranges))
  = match find length_range_accepted (rev ranges) with
    | Some range => range
    | None => (minimumLength this, maximumLength this)
    end
  /\ enabled (SetLengthRange_all this ranges) = enabled this
  /\ expectedCount (SetLengthRange_all this ranges) = expectedCount this
  /\ decoderType (SetLengthRange_all this ranges) = decoderType this
  /\ configTypeName (SetLengthRange_all this ranges) = configTypeName this.
Proof.
  induction ranges as [| [lo hi] ranges IH] using rev_ind.
  - simpl. repeat split.
  - rewrite SetLengthRange_all_snoc, rev_app_distr.
    cbn [rev app fst snd find]. rewrite SetLengthRange_step.
    destruct (length_range_accepted (lo, hi)); simpl.
    + destruct IH as [_ [He [Hx [Hd Hn]]]]. repeat split; assumption.
    + exact IH.
Qed.

(** Bounds that would pass the test of [SetLengthRange] still pass it
    after any sequence of calls, accepted or not. *)
Theorem SetLengthRange_keeps_valid
    (this : SpecificConfig) (ranges : list (Z * Z)) :
  valid_length_range (minimumLength this) (maximumLength this) ->
  valid_length_range (minimumLength (SetLengthRange_all this ranges))
                     (maximumLength (SetLengthRange_all this ranges)).
Proof.
  intro H.
  induction ranges as [| [lo hi] ranges IH] using rev_ind.
  - exact H.
  - rewrite SetLengthRange_all_snoc. cbn [fst snd].
    rewrite SetLengthRange_step.
    destruct (length_range_accepted (lo, hi)) eqn:E; simpl.
    + apply length_range_accepted_valid. exact E.
    + exact IH.
Qed.

Lemma SetLengthRange_keeps_valid_witness :
  valid_length_range 4 0
  /\ valid_length_range
       (minimumLength
          (SetLengthRange_all
             (mkSpecificConfig false 0 4 0 DecoderType.Codabar "Codabar")
             [(2, 8); (9, 3); (-1, 5)]))
       (maximumLength
          (SetLengthRange_all
             (mkSpecificConfig false 0 4 0 DecoderType.Codabar "Codabar")
             [(2, 8); (9, 3); (-1, 5)])).
Proof.
  assert (H : valid_length_range 4 0) by (unfold valid_length_range; lia).
  split; [exact H |].
  exact (SetLengthRange_keeps_valid
           (mkSpecificConfig false 0 4 0 DecoderType.Codabar "Codabar")
           [(2, 8); (9, 3); (-1, 5)] H).
Defined.

(* ================================================================= *)
(** ** Type names and enumerator values *)

Lemma ctor_body_configTypeName (c : ConfigClass) (b : SpecificConfig) :
  configTypeName (ctor_body c b) = TYPENAME c.
Proof. destruct c; reflexivity. Qed.

Lemma TYPENAME_injective (c1 c2 : ConfigClass) :
  TYPENAME c1 = TYPENAME c2 -> c1 = c2.
Proof.
  intro H.
  destruct c1; destruct c2; try reflexivity; simpl in H; discriminate H.
Qed.

(** The type name a derived constructor assigns tells the classes apart:
    whatever bases they started from, two constructed objects carry the
    same [configTypeName] exactly when they are of the same class; and no
    type name is empty. *)
Theorem configTypeName_identifies_class
    (c1 c2 : ConfigClass) (b1 b2 : SpecificConfig) :
  (configTypeName (ctor_body c1 b1) = configTypeName (ctor_body c2 b2)
   <-> c1 = c2)
  /\ configTypeName (ctor_body c1 b1) <> "".
Proof.
  rewrite !ctor_body_configTypeName. split.
  - split; [apply TYPENAME_injective | intros ->; reflexivity].
  - destruct c1; discriminate.
Qed.

(** The derived constructors leave the base as they found it, except for
    the type name and, in [MsiConfig] and [CodabarConfig], the minimum
    length, which they set to 5 and 4. *)
Theorem ctor_body_frame (c : ConfigClass) (b : SpecificConfig) :
  enabled (ctor_body c b) = enabled b
  /\ expectedCount (ctor_body c b) = expectedCount b
  /\ maximumLength (ctor_body c b) = maximumLength b
  /\ decoderType (ctor_body c b) = decoderType b
  /\ minimumLength (ctor_body c b)
     = match c with
       | MsiConfig => 5
       | CodabarConfig => 4
       | _ => minimumLength b
       end.
Proof. destruct c; repeat split. Qed.

(** The integers of [DecoderType]: casting an enumerator to [int] and
    back gives the enumerator, an integer that names an enumerator is the
    value of that enumerator only, and the integers that name one are
    exactly 0 to 39. *)
Theorem DecoderType_value_roundtrip :
  (forall d, DecoderType.of_value (DecoderType.value d) = Some d)
  /\ (forall z d, DecoderType.of_value z = Some d <-> DecoderType.value d = z)
  /\ (forall d1 d2, DecoderType.value d1 = DecoderType.value d2 -> d1 = d2)
  /\ (forall z, (exists d, DecoderType.value d = z) <-> 0 <= z <= 39).
Proof.
  split; [exact DecoderType_of_value_value | split; [| split]].
  - intros z d. split.
    + apply DecoderType_of_value_Some.
    + intros <-. apply DecoderType_of_value_value.
  - intros d1 d2 H.
    pose proof (DecoderType_of_value_value d1) as H1.
    rewrite H, DecoderType_of_value_value in H1. congruence.
  - intro z. split.
    + intros [d <-]. apply DecoderType_value_range.
    + intro H. apply known_decoder_range in H. unfold known_decoder in H.
      destruct (DecoderType.of_value z) as [d |] eqn:E; [| discriminate].
      exists d. apply DecoderType_of_value_Some. exact E.
Qed.

(** The two enumerations agree on the integers of their common
    enumerators up to [IDDocument] only: behind it [BarcodeType] has three
    more, so a later [DecoderType] is three below the [BarcodeType] of
    its name. *)
Theorem DecoderType_BarcodeType_values (d : DecoderType.t) (b : BarcodeType.t) :
  barcodeTypeOf d = Some b ->
  BarcodeType.value b =
    if DecoderType.value d <=? DecoderType.value DecoderType.IDDocument
    then DecoderType.value d
    else DecoderType.value d + 3.
Proof.
  intro H. destruct d; vm_compute in H; injection H as <-; reflexivity.
Qed.

Lemma DecoderType_BarcodeType_values_witness :
  barcodeTypeOf DecoderType.MaxiCode = Some BarcodeType.MaxiCode
  /\ BarcodeType.value BarcodeType.MaxiCode = 42.
Proof.
  split; [reflexivity |].
  exact (DecoderType_BarcodeType_values DecoderType.MaxiCode eq_refl).
Defined.

(* ================================================================= *)
(** ** The exported functions as a protocol *)

Section Protocol.

Variable float : Type.
Variable sdk : SDK float.

(** Every exported function reads a fixed number of leading arguments;
    what follows them has no effect on the reply or on the state. *)
Theorem call_ignores_extra_arguments
    (f : Export) (info : list Value) (st : State float) :
  call sdk f info st = call sdk f (firstn (arity f) info) st.
Proof.
  destruct f; simpl.
  - reflexivity.
  - destruct info as [| a0 rest]; [reflexivity |]. destruct a0; reflexivity.
  - reflexivity.
  - unfold SetEnabledDecoders. destruct (config st); [| reflexivity].
    destruct info as [| a0 rest]; [reflexivity |]. destruct a0; reflexivity.
  - unfold SetDecodingSpeed. destruct (config st); [| reflexivity].
    destruct info as [| a0 rest]; [reflexivity |]. destruct a0; reflexivity.
  - unfold SetRegionOfInterest. destruct (config st); [| reflexivity].
    destruct info as [| a0 info]; [reflexivity |].
    destruct a0; try reflexivity.
    destruct info as [| a1 info]; [reflexivity |].
    destruct a1; try reflexivity.
    destruct info as [| a2 info]; [reflexivity |].
    destruct a2; try reflexivity.
    destruct info as [| a3 info]; [reflexivity |].
    destruct a3; reflexivity.
  - unfold DecodeImage. destruct (config st); [| reflexivity].
    destruct info as [| a0 info]; [reflexivity |].
    destruct a0; try reflexivity.
    destruct info as [| a1 info]; [reflexivity |].
    destruct a1; try reflexivity.
    destruct info as [| a2 info]; [reflexivity |].
    destruct a2; reflexivity.
Qed.

(** Arguments that are missing or of the wrong kind are answered with
    the argument error of the function and change nothing: no engine
    call is made and the registry is as before.  [initialize] answers so
    in any state, the other functions once a registry is in place. *)
Theorem call_rejects_malformed_arguments
    (f : Export) (info : list Value) (st : State float) :
  args_ok f info = false ->
  f = initialize \/ config st <> None ->
  call sdk f info st = (argument_error f, st).
Proof.
  intros Hargs Hst.
  destruct f; simpl in *; try discriminate Hargs.
  - destruct info as [| a0 rest]; [reflexivity |].
    destruct a0; try reflexivity. discriminate Hargs.
  - destruct Hst as [Hf | Hc]; [discriminate Hf |].
    unfold SetEnabledDecoders. destruct (config st); [| contradiction].
    destruct info as [| a0 rest]; [reflexivity |].
    destruct a0; try reflexivity. discriminate Hargs.
  - destruct Hst as [Hf | Hc]; [discriminate Hf |].
    unfold SetDecodingSpeed. destruct (config st); [| contradiction].
    destruct info as [| a0 rest]; [reflexivity |].
    destruct a0; try reflexivity. discriminate Hargs.
  - destruct Hst as [Hf | Hc]; [discriminate Hf |].
    unfold SetRegionOfInterest. destruct (config st); [| contradiction].
    destruct info as [| a0 info]; [reflexivity |].
    destruct a0; try reflexivity.
    destruct info as [| a1 info]; [reflexivity |].
    destruct a1; try reflexivity.
    destruct info as [| a2 info]; [reflexivity |].
    destruct a2; try reflexivity.
    destruct info as [| a3 info]; [reflexivity |].
    destruct a3; try reflexivity. discriminate Hargs.
  - destruct Hst as [Hf | Hc]; [discriminate Hf |].
    unfold DecodeImage. destruct (config st); [| contradiction].
    destruct info as [| a0 info]; [reflexivity |].
    destruct a0; try reflexivity.
    destruct info as [| a1 info]; [reflexivity |].
    destruct a1; try reflexivity.
    destruct info as [| a2 info]; [reflexivity |].
    destruct a2; try reflexivity. discriminate Hargs.
Qed.

(** What a call other than [initialize] does to the pointer and to the
    process options: the pointer is null after the call exactly when it
    was before, and the options are untouched. *)
Lemma call_other_cases (f : Export) (info : list Value) (st : State float) :
  f <> initialize ->
  (config st = None <-> config (snd (call sdk f info st)) = None)
  /\ maximumThreads (snd (call sdk f info st)) = maximumThreads st
  /\ useGPU (snd (call sdk f info st)) = useGPU st.
Proof.
  intro Hf.
  destruct f; simpl; try contradiction.
  - unfold GetVersion.
    destruct (GetLibVersion sdk (calls st)); simpl; repeat split; auto.
  - repeat split; auto.
  - unfold SetEnabledDecoders.
    destruct (config st) as [c |] eqn:E;
      [| simpl; rewrite E; repeat split; auto].
    destruct info as [| a0 rest];
      [simpl; rewrite E; repeat split; auto |].
    destruct a0;
      try (simpl; rewrite E; repeat split; auto).
    destruct (Config_SetEnabledDecoders (unknown_decoder_what sdk) c
                (collect_decoders elements));
      simpl; try rewrite E; repeat split; auto; discriminate.
  - unfold SetDecodingSpeed.
    destruct (config st) as [c |] eqn:E;
      [| simpl; rewrite E; repeat split; auto].
    destruct info as [| a0 rest];
      [simpl; rewrite E; repeat split; auto |].
    destruct a0;
      simpl; try rewrite E; repeat split; auto; discriminate.
  - unfold SetRegionOfInterest.
    destruct (config st) as [c |] eqn:E;
      [| simpl; rewrite E; repeat split; auto].
    destruct info as [| [] [| [] [| [] [| [] info]]]];
      simpl; try rewrite E; repeat split; auto; discriminate.
  - unfold DecodeImage.
    destruct (config st) as [c |] eqn:E;
      [| simpl; rewrite E; repeat split; auto].
    destruct info as [| [] [| [] [| [] info]]];
      try (simpl; rewrite E; repeat split; auto; discriminate).
    destruct (buffer_too_small _ _ _);
      [simpl; rewrite E; repeat split; auto; discriminate |].
    destruct (DecodeImageMemory sdk (calls st) c data (Int32Value d) (Int32Value d0));
      simpl; repeat split; auto; discriminate.
Qed.

(** The pointer is set after a call exactly when it was set before or the
    call is an [initialize] that got a registry from the engine. *)
Lemma call_config (f : Export) (info : list Value) (st : State float) :
  config (snd (call sdk f info st)) <> None
  <-> (config st <> None
       \/ (f = initialize /\ licence_accepted sdk info st = true)).
Proof.
  assert (D : f = initialize \/ f <> initialize)
    by (destruct f; (left; reflexivity) || (right; discriminate)).
  destruct D as [-> | Hf].
  - simpl.
    destruct (Initialize_cases sdk info st)
      as [[S [c [Hc _]]] | [_ [[A [Hc _]] | [A [Hc _]]]]].
    + rewrite Hc. split; [| discriminate].
      intros _. right. split; [reflexivity |].
      apply succeeded_licence_accepted. exact S.
    + rewrite Hc, A. split; [auto |].
      intros [H | [_ H]]; [exact H | discriminate H].
    + split; [| intros _; exact Hc].
      intros _. right. split; [reflexivity | exact A].
  - destruct (call_other_cases info st Hf) as [Hc _]. split.
    + intro H. left. intro E. apply H. apply Hc. exact E.
    + intros [H | [F _]]; [| contradiction].
      intro E. apply H. apply Hc. exact E.
Qed.

Lemma run_cons (f : Export) (info : list Value)
    (program : list (Export * list Value)) (st : State float) :
  run sdk ((f, info) :: program) st
  = ((f, fst (call sdk f info st))
       :: fst (run sdk program (snd (call sdk f info st))),
     snd (run sdk program (snd (call sdk f info st)))).
Proof.
  simpl. destruct (call sdk f info st) as [r st1]. simpl.
  destruct (run sdk program st1) as [log st2]. reflexivity.
Qed.

Lemma run_initialized (program : list (Export * list Value)) (st : State float) :
  config (snd (run sdk program st)) <> None
  <-> (config st <> None \/ some_licence_accepted sdk program st = true).
Proof.
  revert st.
  induction program as [| [f info] program IH]; intro st.
  - simpl. split; [auto | intros [H | H]; [exact H | discriminate H]].
  - rewrite run_cons. cbn [snd some_licence_accepted].
    rewrite IH, call_config, orb_true_iff. split.
    + intros [[H | [-> A]] | H]; auto.
    + intros [H | [H | H]]; auto.
      destruct f; try discriminate H. left. right. split; [reflexivity | exact H].
Qed.

Lemma success_in_log_accepted
    (program : list (Export * list Value)) (st : State float) :
  (exists r, In (initialize, r) (fst (run sdk program st)) /\ succeeded r) ->
  some_licence_accepted sdk program st = true.
Proof.
  revert st.
  induction program as [| [f info] program IH]; intros st [r [Hin S]].
  - destruct Hin.
  - rewrite run_cons in Hin. cbn [fst In] in Hin.
    cbn [some_licence_accepted]. apply orb_true_iff.
    destruct Hin as [Hin | Hin].
    + left. injection Hin as Hf Hr. subst f r.
      apply succeeded_licence_accepted. exact S.
    + right. apply IH. exists r. split; assumption.
Qed.

(** From process start, [isInitialized] answers [true] exactly when
    some earlier [initialize] got a registry from the engine (a string
    argument and a response of [Config::InitializeWithLicenseKey] other
    than [Error]): no other call puts a registry in place, and none takes
    it away again.  In particular it answers [true] once an [initialize]
    has reported success. *)
Theorem isInitialized_reports_licence
    (program : list (Export * list Value)) (info : list Value) :
  (fst (IsInitialized info (snd (run sdk program (initial_state float))))
     = RBoolean true
   <-> some_licence_accepted sdk program (initial_state float) = true)
  /\ ((exists r,
         In (initialize, r) (fst (run sdk program (initial_state float)))
         /\ succeeded r) ->
      fst (IsInitialized info (snd (run sdk program (initial_state float))))
        = RBoolean true).
Proof.
  pose proof (run_initialized program (initial_state float)) as H.
  assert (G : fst (IsInitialized info (snd (run sdk program (initial_state float))))
                = RBoolean true
              <-> some_licence_accepted sdk program (initial_state float) = true).
  { unfold IsInitialized. cbn [fst].
    destruct (config (snd (run sdk program (initial_state float)))) as [c |].
    - split; [| reflexivity]. intros _.
      destruct (proj1 H ltac:(discriminate)) as [C | A]; [| exact A].
      exfalso. apply C. reflexivity.
    - split; [discriminate |]. intro A. exfalso.
      apply (proj2 H); [right; exact A | reflexivity]. }
  split; [exact G |].
  intro S. apply G. apply success_in_log_accepted. exact S.
Qed.

(** An [initialize] that gets no registry from the engine (missing or
    non-string argument, a response with result [Error], or an exception
    of [Config::InitializeWithLicenseKey]) does not report success and
    leaves the registry pointer and the two process options as they were:
    a registry already in place stays in use. *)
Theorem refused_Initialize_keeps_registry (info : list Value) (st : State float) :
  licence_accepted sdk info st = false ->
  ~ succeeded (fst (Initialize sdk info st))
  /\ config (snd (Initialize sdk info st)) = config st
  /\ maximumThreads (snd (Initialize sdk info st)) = maximumThreads st
  /\ useGPU (snd (Initialize sdk info st)) = useGPU st.
Proof.
  intro R.
  destruct (Initialize_cases sdk info st)
    as [[S _] | [N [[_ H] | [A _]]]].
  - apply succeeded_licence_accepted in S. rewrite R in S. discriminate S.
  - split; [exact N | exact H].
  - rewrite R in A. discriminate A.
Qed.

(** From process start the two process options are tied to the
    registry: with no registry in place both are unset; the thread cap,
    once set, is 1 and the acceleration toggle, once set, is 0; the
    toggle is set only after the thread cap, and the thread cap only with
    a registry in place. *)
Theorem options_follow_registry (program : list (Export * list Value)) :
  (config (snd (run sdk program (initial_state float))) = None ->
   maximumThreads (snd (run sdk program (initial_state float))) = None
   /\ useGPU (snd (run sdk program (initial_state float))) = None)
  /\ (maximumThreads (snd (run sdk program (initial_state float))) = None
      \/ maximumThreads (snd (run sdk program (initial_state float))) = Some 1)
  /\ (useGPU (snd (run sdk program (initial_state float))) = None
      \/ useGPU (snd (run sdk program (initial_state float))) = Some 0)
  /\ (useGPU (snd (run sdk program (initial_state float))) = Some 0 ->
      maximumThreads (snd (run sdk program (initial_state float))) = Some 1)
  /\ (maximumThreads (snd (run sdk program (initial_state float))) = Some 1 ->
      config (snd (run sdk program (initial_state float))) <> None).
Proof.
  enough (G : forall st,
            (config st = None /\ maximumThreads st = None /\ useGPU st = None)
            \/ (config st <> None
                /\ ((maximumThreads st = None /\ useGPU st = None)
                    \/ (maximumThreads st = Some 1 /\ useGPU st = None)
                    \/ (maximumThreads st = Some 1 /\ useGPU st = Some 0))) ->
            (config (snd (run sdk program st)) = None
             /\ maximumThreads (snd (run sdk program st)) = None
             /\ useGPU (snd (run sdk program st)) = None)
            \/ (config (snd (run sdk program st)) <> None
                /\ ((maximumThreads (snd (run sdk program st)) = None
                     /\ useGPU (snd (run sdk program st)) = None)
                    \/ (maximumThreads (snd (run sdk program st)) = Some 1
                        /\ useGPU (snd (run sdk program st)) = None)
                    \/ (maximumThreads (snd (run sdk program st)) = Some 1
                        /\ useGPU (snd (run sdk program st)) = Some 0)))).
  { destruct (G (initial_state float)) as [[C [T U]] | [C [[T U] | [[T U] | [T U]]]]];
      [left; repeat split | ..]; rewrite ?T, ?U;
      repeat split; auto; try discriminate; try contradiction;
      intro X; try discriminate X; try (rewrite X in C; contradiction). }
  induction program as [| [f info] program IH]; intros st Hst.
  - exact Hst.
  - rewrite run_cons. cbn [snd]. apply IH.
    assert (D : f = initialize \/ f <> initialize)
      by (destruct f; (left; reflexivity) || (right; discriminate)).
    destruct D as [-> | Hf].
    + simpl.
      destruct (Initialize_cases sdk info st)
        as [[_ [c [Hc [_ [_ [Ht Hg]]]]]]
           | [_ [[_ [Hc [Ht Hg]]] | [_ [Hc [Ht Hg]]]]]].
      * right. rewrite Hc, Ht, Hg. split; [discriminate | auto].
      * rewrite Hc, Ht, Hg. exact Hst.
      * right. split; [exact Hc |]. rewrite Hg.
        destruct Hst as [[_ [T U]] | [_ [[T U] | [[T U] | [T U]]]]];
          destruct Ht as [Ht | Ht]; rewrite Ht, ?T, ?U; auto.
    + destruct (call_other_cases info st Hf) as [Hc [Ht Hg]].
      rewrite Ht, Hg.
      destruct Hst as [[C TU] | [C TU]].
      * left. split; [apply Hc; exact C | exact TU].
      * right. split; [| exact TU]. intro E. apply C. apply Hc. exact E.
Qed.

Lemma call_engine_calls (f : Export) (info : list Value) (st : State float) :
  calls (snd (call sdk f info st)) = calls st
  \/ (may_call_engine f = true
      /\ exists c, calls (snd (call sdk f info st)) = (calls st ++ [c])%list).
Proof.
  destruct f; simpl.
  - right. split; [reflexivity |]. unfold GetVersion.
    destruct (GetLibVersion sdk (calls st)); simpl; eauto.
  - unfold Initialize.
    destruct info as [| [] rest]; try (left; reflexivity).
    right. split; [reflexivity |].
    destruct (InitializeWithLicenseKey sdk (calls st) _) as [response | e];
      [destruct (GetResult response) |]; try (simpl; eauto; fail).
    unfold SetGlobalOption. cbn [calls set_config record_call].
    destruct (SetGlobalOption_throws sdk _ BKGlobalOption_SetMaximumThreads 1);
      [simpl; eauto |].
    cbn [calls].
    destruct (SetGlobalOption_throws sdk _ BKGlobalOption_UseGPU 0);
      simpl; eauto.
  - left. reflexivity.
  - left. unfold SetEnabledDecoders.
    destruct (config st) as [c |]; [| reflexivity].
    destruct info as [| [] rest]; try reflexivity.
    destruct (Config_SetEnabledDecoders _ c _); reflexivity.
  - left. unfold SetDecodingSpeed.
    destruct (config st) as [c |]; [| reflexivity].
    destruct info as [| [] rest]; reflexivity.
  - left. unfold SetRegionOfInterest.
    destruct (config st) as [c |]; [| reflexivity].
    destruct info as [| [] [| [] [| [] [| [] info]]]]; reflexivity.
  - unfold DecodeImage.
    destruct (config st) as [c |]; [| left; reflexivity].
    destruct info as [| [] [| [] [| [] info]]]; try (left; reflexivity).
    destruct (buffer_too_small _ _ _); [left; reflexivity |].
    right. split; [reflexivity |].
    destruct (DecodeImageMemory sdk (calls st) c data (Int32Value d) (Int32Value d0));
      simpl; eauto.
Qed.

(** The record of engine calls only grows, by at most one call for each
    [getVersion], [initialize] or [decodeImage] of the program; the
    setters and [isInitialized] never reach the version, licence or
    decode functions of the engine. *)
Theorem engine_calls_accounting
    (program : list (Export * list Value)) (st : State float) :
  exists made,
    calls (snd (run sdk program st)) = (calls st ++ made)%list
    /\ (List.length made
        <= List.length (filter (fun c => may_call_engine (fst c)) program))%nat.
Proof.
  revert st.
  induction program as [| [f info] program IH]; intro st.
  - exists []. simpl. rewrite app_nil_r. split; [reflexivity | lia].
  - rewrite run_cons. cbn [snd].
    destruct (IH (snd (call sdk f info st))) as [made [E L]].
    rewrite E. cbn [filter fst].
    destruct (call_engine_calls f info st) as [C | [M [c C]]]; rewrite C.
    + exists made. split; [reflexivity |].
      destruct (may_call_engine f); simpl; lia.
    + exists (c :: made). rewrite <- app_assoc. split; [reflexivity |].
      rewrite M. simpl. lia.
Qed.

(** [getVersion] and [isInitialized] leave the registry pointer, the
    registry and the process options as they are.  [decodeImage] leaves
    the process options as they are and the pointer null or set as it
    was; when it does not reach the engine it leaves the whole state
    unchanged, and when it does the registry is as the engine left
    it. *)
Theorem reading_calls_keep_options
    (f : Export) (info : list Value) (st : State float) :
  f = getVersion \/ f = isInitialized \/ f = decodeImage ->
  maximumThreads (snd (call sdk f info st)) = maximumThreads st
  /\ useGPU (snd (call sdk f info st)) = useGPU st
  /\ (config st = None <-> config (snd (call sdk f info st)) = None)
  /\ (f <> decodeImage -> config (snd (call sdk f info st)) = config st)
  /\ (f = decodeImage ->
      calls (snd (call sdk f info st)) = calls st ->
      snd (call sdk f info st) = st)
  /\ (f = decodeImage ->
      forall c imageData w h,
        calls (snd (call sdk f info st))
          = (calls st ++ [DecodeImageMemory_call c imageData w h])%list ->
        config (snd (call sdk f info st))
          = Some (DecodeImageMemory_leaves sdk (calls st) c imageData w h)).
Proof.
  intro Hf.
  assert (N : f <> initialize)
    by (destruct Hf as [-> | [-> | ->]]; discriminate).
  destruct (call_other_cases info st N) as [Hc [Ht Hg]].
  split; [exact Ht | split; [exact Hg | split; [exact Hc |]]].
  destruct Hf as [-> | [-> | ->]].
  - split; [| split; intro X; discriminate X].
    intros _. simpl. unfold GetVersion.
    destruct (GetLibVersion sdk (calls st)); reflexivity.
  - split; [| split; intro X; discriminate X]. intros _. reflexivity.
  - split; [intro X; contradiction |].
    simpl. unfold DecodeImage.
    assert (L : forall (l : list (EngineCall float)) x, (l ++ [x])%list <> l).
    { intros l x E. apply (f_equal (@List.length _)) in E.
      rewrite length_app in E. simpl in E. lia. }
    assert (L2 : forall (l : list (EngineCall float)) x, l <> (l ++ [x])%list).
    { intros l x E. symmetry in E. exact (L l x E). }
    destruct (config st) as [c |] eqn:E;
      [| split; [reflexivity | intros _ c im w h X; exfalso; exact (L2 _ _ X)]].
    destruct info as [| [] [| [] [| [] info]]];
      try (split; [reflexivity | intros _ c0 im w h X; exfalso; exact (L2 _ _ X)]).
    destruct (buffer_too_small _ _ _);
      [split; [reflexivity | intros _ c0 im w h X; exfalso; exact (L2 _ _ X)] |].
    destruct (DecodeImageMemory sdk (calls st) c data (Int32Value d) (Int32Value d0));
      simpl; (split; [intros _ X; exfalso; exact (L _ _ X) |]);
      intros _ c0 im w h X; apply app_inj_tail in X as [_ X];
      injection X as <- <- <- <-; reflexivity.
Qed.

(** The guard of [decodeImage] checks neither the sign of the dimensions
    nor that they are positive: with a zero width or height every buffer,
    the empty one included, goes to the engine, and so does a buffer of
    at least [width * height] bytes when both are negative and their
    product fits an [int]. *)
Theorem DecodeImage_passes_unchecked_dimensions
    (st : State float) (c : Config float) (imageData : list Byte.byte)
    (a1 a2 : double) (rest : list Value) :
  config st = Some c ->
  (Int32Value a1 = 0 \/ Int32Value a2 = 0
   \/ (Int32Value a1 < 0 /\ Int32Value a2 < 0
       /\ Int32Value a1 * Int32Value a2 <= INT_MAX
       /\ Int32Value a1 * Int32Value a2 <= Z.of_nat (List.length imageData))) ->
  calls (snd (DecodeImage sdk (VBuffer imageData :: VNumber a1 :: VNumber a2 :: rest) st))
  = (calls st
     ++ [DecodeImageMemory_call c imageData (Int32Value a1) (Int32Value a2)])%list.
Proof.
  intros Hc Hd.
  rewrite DecodeImage_proceeds with (c := c); [reflexivity | exact Hc |].
  unfold buffer_too_small. apply Z.ltb_ge.
  destruct Hd as [H | [H | [H1 [H2 [H3 H4]]]]].
  - rewrite H. rewrite Z.mul_0_l. change (to_size_t (wrap32 0)) with 0. lia.
  - rewrite H. rewrite Z.mul_0_r. change (to_size_t (wrap32 0)) with 0. lia.
  - rewrite wrap32_small by (unfold INT_MIN, INT_MAX in *; nia).
    rewrite to_size_t_nonneg by (unfold INT_MAX in *; nia). exact H4.
Qed.

Lemma collect_decoders_length (decodersArray : list Value) :
  List.length (collect_decoders decodersArray)
  = List.length (filter IsNumber decodersArray).
Proof.
  rewrite collect_decoders_spec.
  induction decodersArray as [| element rest IH]; [reflexivity |].
  simpl. rewrite length_app, IH. destruct element; reflexivity.
Qed.

(** The number [setEnabledDecoders] reports on success is the number of
    elements of the array that are numbers, repeated ones counted each
    time and the other elements not at all. *)
Theorem SetEnabledDecoders_counts_numbers
    (st : State float) (decodersArray : list Value) (rest : list Value) :
  succeeded (fst (SetEnabledDecoders sdk (VArray decodersArray :: rest) st)) ->
  fst (SetEnabledDecoders sdk (VArray decodersArray :: rest) st)
  = RString ("SUCCESS: Enabled "
             ++ (to_string (Z.of_nat (List.length (filter IsNumber decodersArray)))
             ++ " decoders")).
Proof.
  unfold SetEnabledDecoders.
  destruct (config st) as [c |].
  - destruct (Config_SetEnabledDecoders (unknown_decoder_what sdk) c
                (collect_decoders decodersArray)) as [c' | e]; cbn [fst].
    + intros _. rewrite collect_decoders_length. reflexivity.
    + intro S. exfalso. exact (error_not_succeeded S).
  - cbn [fst]. intro S. exfalso.
    exact (@error_not_succeeded "SDK not initialized" S).
Qed.

End Protocol.

(* ================================================================= *)
(** ** More on the response document *)

(** Whatever the sequence, the document is an object whose first field
    is [resultsCount], holding the length of the sequence as an [int]. *)
Theorem marshal_resultsCount_first (results : list BaseResult) :
  exists others,
    marshal results =
      cJSON_Object
        (("resultsCount", cJSON_Number (wrap32 (Z.of_nat (List.length results))))
         :: others).
Proof.
  unfold marshal.
  destruct (wrap32 (Z.of_nat (List.length results)) =? 0) eqn:E0.
  - apply Z.eqb_eq in E0. rewrite E0. simpl. eexists. reflexivity.
  - destruct (wrap32 (Z.of_nat (List.length results)) =? 1) eqn:E1.
    + apply Z.eqb_eq in E1. rewrite E1.
      unfold add_extra. simpl. rewrite add_extra_loop. simpl.
      eexists. reflexivity.
    + simpl. eexists. reflexivity.
Qed.

Lemma spec_auxiliary_injective (r1 r2 : BaseResult) :
  spec_auxiliary r1 = spec_auxiliary r2 -> extra r1 = extra r2.
Proof.
  unfold spec_auxiliary.
  generalize (extra r1) as l1, (extra r2) as l2.
  induction l1 as [| [k1 v1] l1 IH]; intros [| [k2 v2] l2] H;
    simpl in H; try discriminate H.
  - reflexivity.
  - injection H as Hk Hv Hl. subst. f_equal. apply IH. exact Hl.
Qed.

Lemma singleResult_injective (r1 r2 : BaseResult) :
  nul_free_result r1 = true -> nul_free_result r2 = true ->
  singleResult r1 = singleResult r2 -> r1 = r2.
Proof.
  intros N1 N2 H.
  rewrite (singleResult_nul_free r1 N1), (singleResult_nul_free r2 N2) in H.
  unfold spec_subdocument in H. injection H as Hn Ht He.
  apply spec_auxiliary_injective in He.
  destruct r1, r2. simpl in *. subst. reflexivity.
Qed.

Lemma map_singleResult_injective (l1 l2 : list BaseResult) :
  forallb nul_free_result l1 = true -> forallb nul_free_result l2 = true ->
  map singleResult l1 = map singleResult l2 -> l1 = l2.
Proof.
  revert l2.
  induction l1 as [| r1 l1 IH]; intros [| r2 l2] N1 N2 H;
    simpl in *; try discriminate H.
  - reflexivity.
  - apply andb_true_iff in N1 as [N1 N1'].
    apply andb_true_iff in N2 as [N2 N2'].
    injection H as Hr Hl.
    f_equal; [apply singleResult_injective | apply IH]; assumption.
Qed.

(** No information is lost on results whose strings hold no NUL: two
    such sequences, of lengths an [int] can hold, that render to the same
    document are the same sequence. *)
Theorem marshal_injective (results1 results2 : list BaseResult) :
  Z.of_nat (List.length results1) <= INT_MAX ->
  Z.of_nat (List.length results2) <= INT_MAX ->
  forallb nul_free_result results1 = true ->
  forallb nul_free_result results2 = true ->
  marshal results1 = marshal results2 ->
  results1 = results2.
Proof.
  intros L1 L2 N1 N2 H.
  rewrite (marshal_shape results1 L1), (marshal_shape results2 L2) in H.
  destruct results1 as [| r1 [| r1' rest1]];
    destruct results2 as [| r2 [| r2' rest2]];
    try reflexivity; try discriminate H.
  - simpl in N1, N2. rewrite andb_true_r in N1, N2.
    f_equal. apply singleResult_injective; try assumption.
    rewrite !singleResult_shape. injection H as Hn Ht He.
    rewrite Hn, Ht, He. reflexivity.
  - apply map_singleResult_injective; try assumption.
    injection H as _ Ha Hb Hc. simpl. rewrite Ha, Hb, Hc. reflexivity.
Qed.

Lemma marshal_injective_witness :
  [ {| barcodeTypeName := "QR"; textualData := "ABC"; extra := [("gs1", "01")] |} ]
  = [ mkBaseResult "QR" "ABC" [("gs1", "01")] ].
Proof.
  apply marshal_injective.
  - vm_compute. discriminate.
  - vm_compute. discriminate.
  - reflexivity.
  - reflexivity.
  - reflexivity.
Defined.

(** Without that condition information is lost: a payload with an
    embedded NUL and its part before the NUL render alike. *)
Lemma marshal_collision :
  marshal [result_with_NUL] = marshal [mkBaseResult "QR" "A" []]
  /\ result_with_NUL <> mkBaseResult "QR" "A" [].
Proof. split; [reflexivity | discriminate]. Qed.

(* ================================================================= *)
(** ** The further properties at work on the stand-in engine *)

Lemma call_rejects_malformed_arguments_witness :
  call sample_sdk decodeImage [VBuffer [Byte.x00]; VNumber (of_int 1)] sample_state
  = (RString "ERROR: Buffer and two numbers expected (imageBuffer, width, height)",
     sample_state).
Proof.
  apply (call_rejects_malformed_arguments sample_sdk (f := decodeImage)
           [VBuffer [Byte.x00]; VNumber (of_int 1)] sample_state).
  - reflexivity.
  - right. discriminate.
Defined.

Lemma refused_Initialize_keeps_registry_witness :
  licence_accepted sample_sdk [VString "WRONG"] sample_state = false
  /\ ~ succeeded (fst (Initialize sample_sdk [VString "WRONG"] sample_state))
  /\ config (snd (Initialize sample_sdk [VString "WRONG"] sample_state))
     = Some sample_registry
  /\ maximumThreads (snd (Initialize sample_sdk [VString "WRONG"] sample_state))
     = Some 1
  /\ useGPU (snd (Initialize sample_sdk [VString "WRONG"] sample_state))
     = Some 0.
Proof.
  split; [reflexivity |].
  exact (refused_Initialize_keeps_registry sample_sdk [VString "WRONG"]
           sample_state eq_refl).
Defined.

Lemma reading_calls_keep_options_witness :
  maximumThreads
    (snd (call sample_sdk decodeImage
            [VBuffer [Byte.x00]; VNumber (of_int 1); VNumber (of_int 1)]
            sample_state))
  = Some 1
  /\ useGPU
       (snd (call sample_sdk decodeImage
               [VBuffer [Byte.x00]; VNumber (of_int 1); VNumber (of_int 1)]
               sample_state))
     = Some 0.
Proof.
  pose proof (reading_calls_keep_options sample_sdk (f := decodeImage)
                [VBuffer [Byte.x00]; VNumber (of_int 1); VNumber (of_int 1)]
                sample_state (or_intror (or_intror eq_refl))) as H.
  split; [exact (proj1 H) | exact (proj1 (proj2 H))].
Defined.

Lemma DecodeImage_passes_unchecked_dimensions_witness :
  calls (snd (DecodeImage sample_sdk
                [VBuffer [Byte.x00; Byte.x00; Byte.x00; Byte.x00; Byte.x00; Byte.x00];
                 VNumber (of_int (-2)); VNumber (of_int (-3))] sample_state))
  = (calls sample_state
     ++ [DecodeImageMemory_call sample_registry
           [Byte.x00; Byte.x00; Byte.x00; Byte.x00; Byte.x00; Byte.x00]
           (-2) (-3)])%list.
Proof.
  apply (DecodeImage_passes_unchecked_dimensions sample_sdk sample_state
           [Byte.x00; Byte.x00; Byte.x00; Byte.x00; Byte.x00; Byte.x00]
           (of_int (-2)) (of_int (-3)) [] sample_state_config).
  right. right. vm_compute. repeat split; discriminate.
Defined.

Lemma SetEnabledDecoders_counts_numbers_witness :
  fst (SetEnabledDecoders sample_sdk
         [VArray [VNumber (of_int 2); VString "QR"; VNumber (of_int 2)]]
         sample_state)
  = RString "SUCCESS: Enabled 2 decoders".
Proof.
  apply (SetEnabledDecoders_counts_numbers sample_sdk sample_state
           [VNumber (of_int 2); VString "QR"; VNumber (of_int 2)] []).
  exists "Enabled 2 decoders". reflexivity.
Defined.
